(** * deepface/commons/functions.py: image loading, face detection policy,
      geometric and pixel normalisation

    A shallow embedding of [load_image], [loadBase64Img], [detect_faces],
    [normalize_input] and [reshape_face].

    - NumPy arrays are objects: they live in a heap and are passed around by
      reference, so that "the same object" and "mutated in place" can be
      stated.
    - Python exceptions are values of [exn]; a computation that may raise
      returns [result].
    - What the file imports from elsewhere (the file system, [base64], the
      decoders and kernels of [cv2], and [deepface.detectors.FaceDetector]) is
      the record [Env]; the arithmetic of an array's dtype is the class
      [Dtype].
    - Python's own [float] is IEEE binary64: the scale factor of
      [reshape_face] is computed with the kernel's primitive floats. *)

From Stdlib Require Import ZArith QArith Lia Ascii String PrimFloat FloatOps SpecFloat Uint63.
From stdpp Require Import gmap strings list pretty.

Local Open Scope Z_scope.

(** ** Exceptions and results *)

Inductive exn : Type :=
| ValueError (args : list string)
| IndexError
| TypeError
| AttributeError
| ZeroDivisionError
| OverflowError
| BinasciiError          (* base64.b64decode on a malformed payload *)
| Cv2Error               (* cv2.error: a failed assertion inside OpenCV *)
| DetectorError          (* whatever a detector backend raises *)
| InvalidReference.      (* a reference to no object; Python cannot produce one *)

Inductive result (A : Type) : Type :=
| Ok (a : A)
| Raise (e : exn).
Arguments Ok {A} a.
Arguments Raise {A} e.

Definition rbind {A B : Type} (r : result A) (k : A -> result B) : result B :=
  match r with
  | Ok a => k a
  | Raise e => Raise e
  end.

Notation "'let?' x ':=' r 'in' k" := (rbind r (fun x => k))
  (at level 10, x pattern, r at level 100, k at level 200).

(** ** Python values the functions receive *)

Definition loc := nat.

Inductive pyval : Type :=
| PNone
| PStr (s : string)
| PArr (l : loc).

(** ** Strings *)

Definition comma : ascii := ","%char.

(** [s.split(c)]: the fields between the occurrences of [c]; never empty. *)
Fixpoint split_on (c : ascii) (s : string) : list string :=
  match s with
  | EmptyString => [EmptyString]
  | String a s' =>
      if Ascii.eqb a c then EmptyString :: split_on c s'
      else match split_on c s' with
           | f :: fs => String a f :: fs
           | [] => [String a EmptyString]
           end
  end.

(** [xs[i]] on a Python list or tuple, for [i >= 0]. *)
Definition py_index {A : Type} (xs : list A) (i : nat) : result A :=
  match xs !! i with
  | Some x => Ok x
  | None => Raise IndexError
  end.

(** [s[0:11] == "data:image/"] together with [len(s) > 11]. *)
Definition is_data_uri (s : string) : bool :=
  (11 <? Z.of_nat (String.length s)) && String.eqb (substring 0 11 s) "data:image/".

(** [repr] of a tuple of ints, as an f-string prints [img.shape]. *)
Definition tuple_repr (t : list Z) : string :=
  match t with
  | [] => "()"
  | [x] => "(" +:+ pretty x +:+ ",)"
  | x :: xs => "(" +:+ pretty x +:+ fold_right (fun y acc => ", " +:+ pretty y +:+ acc) ")" xs
  end.

(** ** Arrays *)

(** A NumPy array: its [shape] and its elements in row-major order. *)
Record ndarray (E : Type) : Type := mk_ndarray {
  shape : list Z;
  data : list E
}.
Arguments mk_ndarray {E} shape data.
Arguments shape {E} _.
Arguments data {E} _.

(** [img.shape[i]] *)
Definition shape_at {E : Type} (a : ndarray E) (i : nat) : result Z :=
  py_index (shape a) i.

(** [len(arr)]: the first dimension; a 0-d array has no length. *)
Definition np_len {E : Type} (a : ndarray E) : result Z :=
  match shape a with
  | [] => Raise TypeError
  | n :: _ => Ok n
  end.

(** The arithmetic of the array's dtype. Literals of the source are given as
    exact rationals and rounded by [lit]. [mean] and [std] are NumPy's
    reductions over all elements. *)
Class Dtype (E : Type) : Type := {
  lit : Q -> E;
  el_mul : E -> E -> E;
  el_div : E -> E -> E;
  el_sub : E -> E -> E;
  np_mean : list E -> E;
  np_std : list E -> E
}.

(** ** The heap, the trace and the monad of effects *)

Inductive event : Type :=
| EvBuild (backend : string)
| EvDetect (backend : string) (img : loc) (align : bool).

Record state (E : Type) : Type := mk_state {
  heap : gmap loc (ndarray E);
  trace : list event
}.
Arguments mk_state {E} heap trace.
Arguments heap {E} _.
Arguments trace {E} _.

Definition M (E A : Type) : Type := state E -> result A * state E.

Definition ret {E A : Type} (a : A) : M E A := fun st => (Ok a, st).

Definition raise {E A : Type} (e : exn) : M E A := fun st => (Raise e, st).

Definition bind {E A B : Type} (m : M E A) (k : A -> M E B) : M E B :=
  fun st =>
    match m st with
    | (Ok a, st') => k a st'
    | (Raise e, st') => (Raise e, st')
    end.

Notation "'let*' x ':=' m 'in' k" := (bind m (fun x => k))
  (at level 10, x pattern, m at level 100, k at level 200).
Notation "m ';;' k" := (bind m (fun _ => k))
  (at level 100, k at level 200, right associativity).

(** [try: m except: h] with a bare [except]: every exception is caught. *)
Definition try_except {E A : Type} (m : M E A) (h : M E A) : M E A :=
  fun st =>
    match m st with
    | (Ok a, st') => (Ok a, st')
    | (Raise _, st') => h st'
    end.

Definition lift {E A : Type} (r : result A) : M E A := fun st => (r, st).

(** Reading the object behind a reference. *)
Definition deref {E : Type} (l : loc) : M E (ndarray E) :=
  fun st =>
    match heap st !! l with
    | Some a => (Ok a, st)
    | None => (Raise InvalidReference, st)
    end.

(** A new array object. *)
Definition alloc {E : Type} (a : ndarray E) : M E loc :=
  fun st =>
    let l := fresh (dom (heap st)) in
    (Ok l, mk_state (<[l := a]> (heap st)) (trace st)).

(** Writing an existing object in place. *)
Definition store {E : Type} (l : loc) (a : ndarray E) : M E unit :=
  fun st => (Ok tt, mk_state (<[l := a]> (heap st)) (trace st)).

Definition log {E : Type} (ev : event) : M E unit :=
  fun st => (Ok tt, mk_state (heap st) (trace st ++ [ev])).

(** ** What the module imports *)

Definition region := list Z.

Record Env (E : Type) : Type := mk_env {
  (** [os.path.isfile] *)
  os_path_isfile : string -> bool;
  (** [cv2.imread]: [None] when the file cannot be decoded. *)
  cv2_imread : string -> option (ndarray E);
  (** [base64.b64decode], bytes as integers. *)
  base64_b64decode : string -> result (list Z);
  (** [cv2.imdecode(buf, cv2.IMREAD_COLOR)]: [None] when the buffer holds no
      image, [cv2.error] when OpenCV refuses it. *)
  cv2_imdecode : list Z -> result (option (ndarray E));
  (** [FaceDetector.build_model]: a handle, or an exception. *)
  build_model : string -> result nat;
  (** [FaceDetector.detect_faces]: the crops with their regions. *)
  detector_detect_faces : nat -> string -> ndarray E -> bool -> result (list (ndarray E * region));
  (** The pixels [cv2.cvtColor(img, cv2.COLOR_BGR2GRAY)] computes. *)
  cvtColor_data : ndarray E -> list E;
  (** The pixels [cv2.resize(img, (w, h))] interpolates. *)
  resize_data : ndarray E -> Z -> Z -> list E;
  (** Whether [cv2.cvtColor] takes arrays of this dtype: it does for uint8,
      uint16 and float32, and raises for the others, float64 included. *)
  cv2_cvtColor_depth : bool;
  (** Whether [cv2.resize] takes arrays of this dtype: it does for uint8,
      uint16, int16, float32 and float64, and raises for the others. *)
  cv2_resize_depth : bool
}.
Arguments os_path_isfile {E} _ _.
Arguments cv2_imread {E} _ _.
Arguments base64_b64decode {E} _ _.
Arguments cv2_imdecode {E} _ _.
Arguments build_model {E} _ _.
Arguments detector_detect_faces {E} _ _ _ _ _.
Arguments cvtColor_data {E} _ _.
Arguments resize_data {E} _ _ _ _.
Arguments cv2_cvtColor_depth {E} _.
Arguments cv2_resize_depth {E} _.

(** ** load_image *)

Section Loader.
Context {E : Type} (env : Env E).

(** An object the library hands back: a fresh array, or [None]. *)
Definition new_object (o : option (ndarray E)) : M E pyval :=
  match o with
  | Some a => let* l := alloc a in ret (PArr l)
  | None => ret PNone
  end.

(** [np.fromstring(base64.b64decode(encoded_data), np.uint8)] followed by
    [cv2.imdecode(nparr, cv2.IMREAD_COLOR)]. *)
Definition decode_payload (encoded_data : string) : M E pyval :=
  let* nparr := lift (base64_b64decode env encoded_data) in
  let* img := lift (cv2_imdecode env nparr) in
  new_object img.

Definition loadBase64Img (uri : string) : M E pyval :=
  let* encoded_data := lift (py_index (split_on comma uri) 1) in
  decode_payload encoded_data.

(** [len(img) > 11 and img[0:11] == "data:image/"]. An array compared with a
    string is unequal: the NumPy this code runs on (before 1.25, where the
    comparison became elementwise) answers the scalar [False]. *)
Definition base64_test (img : pyval) : M E bool :=
  match img with
  | PStr s => ret (is_data_uri s)
  | PArr l =>
      let* a := deref l in
      let* n := lift (np_len a) in
      ret ((11 <? n) && false)
  | PNone => raise TypeError
  end.

Definition load_image (img : pyval) : M E pyval :=
  let exact_image := match img with PArr _ => true | _ => false end in
  let* base64_img := base64_test img in
  if base64_img then
    match img with
    | PStr s => loadBase64Img s
    | _ => raise AttributeError
    end
  else if negb exact_image then
    match img with
    | PStr s =>
        if negb (os_path_isfile env s) then
          raise (ValueError ["Confirm that "; s; " exists"])
        else new_object (cv2_imread env s)
    | _ => raise TypeError
    end
  else ret img.

End Loader.

(** ** detect_faces *)

Definition no_face_message : string :=
  "No face could be detected. Please confirm that the picture is a face photo or consider to set enforce_detection param to False.".

Definition degenerate_message (shp : list Z) : string :=
  "Detected face shape is " +:+ tuple_repr shp +:+ ", Consider to set enforce_detection argument to False.".

Section Detector.
Context {E : Type} (env : Env E).

(** [FaceDetector.build_model(detector_backend)] *)
Definition call_build_model (detector_backend : string) : M E nat :=
  log (EvBuild detector_backend) ;;
  lift (build_model env detector_backend).

(** The crops a backend returns are array objects of their own. *)
Fixpoint alloc_faces (faces : list (ndarray E * region)) : M E (list (loc * region)) :=
  match faces with
  | [] => ret []
  | (crop, reg) :: rest =>
      let* l := alloc crop in
      let* ls := alloc_faces rest in
      ret ((l, reg) :: ls)
  end.

(** [FaceDetector.detect_faces(face_detector, detector_backend, img, align)] *)
Definition call_detect_faces (face_detector : nat) (detector_backend : string)
    (img : loc) (align : bool) : M E (list (loc * region)) :=
  log (EvDetect detector_backend img align) ;;
  let* a := deref img in
  let* faces := lift (detector_detect_faces env face_detector detector_backend a align) in
  alloc_faces faces.

(** [[0, 0, img.shape[0], img.shape[1]]] *)
Definition whole_image_region (img : loc) : M E region :=
  let* a := deref img in
  let* h := lift (shape_at a 0) in
  let* w := lift (shape_at a 1) in
  ret [0; 0; h; w].

(** [img.shape[0] == 0 or img.shape[1] == 0]; [or] does not evaluate its
    second operand when the first holds. *)
Definition zero_extent (a : ndarray E) : result bool :=
  let? h := shape_at a 0 in
  if h =? 0 then Ok true
  else let? w := shape_at a 1 in Ok (w =? 0).

(** The loop of lines 123-125. *)
Fixpoint check_faces (enforce_detection : bool) (faces : list (loc * region)) : M E unit :=
  match faces with
  | [] => ret tt
  | (img, _) :: rest =>
      let* a := deref img in
      let* z := lift (zero_extent a) in
      if z && enforce_detection then
        raise (ValueError [degenerate_message (shape a)])
      else check_faces enforce_detection rest
  end.

(** Lines 115-121. *)
Definition zero_faces_handling (img : loc) (enforce_detection : bool)
    (faces : list (loc * region)) : M E (list (loc * region)) :=
  if (length faces =? 0)%nat then
    if negb enforce_detection then raise (ValueError [no_face_message])
    else
      let* r := whole_image_region img in
      ret [(img, r)]
  else ret faces.

Definition detect_faces (img : pyval) (enforce_detection : bool)
    (detector_backend : string) (align : bool) : M E (list (loc * region)) :=
  let* img := load_image env img in
  match img with
  | PArr img =>
      let* img_region := whole_image_region img in
      if String.eqb detector_backend "skip" then ret [(img, img_region)]
      else
        let* face_detector := call_build_model detector_backend in
        let* faces :=
          try_except (call_detect_faces face_detector detector_backend img align) (ret []) in
        let* faces := zero_faces_handling img enforce_detection faces in
        check_faces enforce_detection faces ;;
        ret faces
  | _ => raise AttributeError      (* [img.shape] of [None] *)
  end.

End Detector.

(** ** normalize_input *)

Section Normalizer.
Context {E : Type} `{Dtype E}.

Definition map_data (f : E -> E) (a : ndarray E) : ndarray E :=
  mk_ndarray (shape a) (map f (data a)).

(** The state in which the object behind [l] has become [b]. *)
Definition overwritten (st : state E) (l : loc) (b : ndarray E) : state E :=
  mk_state (<[l := b]> (heap st)) (trace st).

(** The factor of [img *= 255]. *)
Definition times_255 (x : E) : E := el_mul x (lit (255 # 1)).

(** [img op= c]: the object behind [img] is overwritten. *)
Definition inplace (f : E -> E) (img : loc) : M E unit :=
  let* a := deref img in
  store img (map_data f a).

(** The elements [img[..., k]] selects are those whose index along the last
    axis is [k]. *)
Definition update_channel (f : E -> E) (k c : Z) (d : list E) : list E :=
  imap (fun i x => if Z.of_nat i mod c =? k then f x else x) d.

(** [img[..., k] op= c] *)
Definition inplace_channel (f : E -> E) (k : Z) (img : loc) : M E unit :=
  let* a := deref img in
  match last (shape a) with
  | Some c =>
      if k <? c then store img (mk_ndarray (shape a) (update_channel f k c (data a)))
      else raise IndexError
  | None => raise IndexError
  end.

Definition normalize_input (img : loc) (normalization : string) : M E loc :=
  if String.eqb normalization "base" then ret img
  else
    inplace times_255 img ;;
    if String.eqb normalization "raw" then ret img
    else if String.eqb normalization "Facenet" then
      let* a := deref img in
      let mean := np_mean (data a) in
      let std := np_std (data a) in
      let* t := alloc (map_data (fun x => el_sub x mean) a) in
      let* ta := deref t in
      alloc (map_data (fun x => el_div x std) ta)
    else if String.eqb normalization "Facenet2018" then
      inplace (fun x => el_div x (lit (1275 # 10))) img ;;
      inplace (fun x => el_sub x (lit (1 # 1))) img ;;
      ret img
    else if String.eqb normalization "VGGFace" then
      inplace_channel (fun x => el_sub x (lit (935940 # 10000))) 0 img ;;
      inplace_channel (fun x => el_sub x (lit (1047624 # 10000))) 1 img ;;
      inplace_channel (fun x => el_sub x (lit (1291863 # 10000))) 2 img ;;
      ret img
    else if String.eqb normalization "VGGFace2" then
      inplace_channel (fun x => el_sub x (lit (914953 # 10000))) 0 img ;;
      inplace_channel (fun x => el_sub x (lit (1038827 # 10000))) 1 img ;;
      inplace_channel (fun x => el_sub x (lit (1310912 # 10000))) 2 img ;;
      ret img
    else if String.eqb normalization "ArcFace" then
      inplace (fun x => el_sub x (lit (1275 # 10))) img ;;
      inplace (fun x => el_div x (lit (128 # 1))) img ;;
      ret img
    else ret img.

End Normalizer.

(** ** Python floats *)

(** [float(z)], exact for [|z| < 2^53]: every array dimension and target size
    is in that range. *)
Definition py_float_of_int (z : Z) : float :=
  if z <? 0 then PrimFloat.opp (PrimFloat.of_uint63 (Uint63.of_Z (- z)))
  else PrimFloat.of_uint63 (Uint63.of_Z z).

(** [a / b] on ints: true division. *)
Definition py_truediv (a b : Z) : result float :=
  if b =? 0 then Raise ZeroDivisionError
  else Ok (PrimFloat.div (py_float_of_int a) (py_float_of_int b)).

(** [min(x, y)]: the second argument wins only when it is smaller. *)
Definition py_min (x y : float) : float :=
  if PrimFloat.ltb y x then y else x.

(** [n * x] for an int [n] and a float [x]. *)
Definition py_mul_int_float (n : Z) (x : float) : float :=
  PrimFloat.mul (py_float_of_int n) x.

(** [int(x)]: truncation toward zero. *)
Definition py_int (x : float) : result Z :=
  match Prim2SF x with
  | S754_zero _ => Ok 0
  | S754_finite s m e =>
      let v := match e with
               | Z0 => Z.pos m
               | Zpos p => Z.pos m * 2 ^ Zpos p
               | Zneg p => Z.pos m / 2 ^ Zpos p
               end in
      Ok (if s then - v else v)
  | S754_infinity _ => Raise OverflowError
  | S754_nan => Raise (ValueError ["cannot convert float NaN to integer"])
  end.

(** ** reshape_face *)

Definition prod_shape (s : list Z) : Z := fold_right Z.mul 1 s.

(** The first [k] consecutive blocks of [n] elements. *)
Fixpoint chunks {A : Type} (n k : nat) (l : list A) : list (list A) :=
  match k with
  | O => []
  | S k' => take n l :: chunks n k' (drop n l)
  end.

Definition padded_shape (s : list Z) (pad_width : list (Z * Z)) : list Z :=
  zip_with (fun n p => fst p + n + snd p) s pad_width.

(** The elements of [np.pad(a, pad_width, 'constant')]: each axis gets
    [before] slices of zeros in front and [after] behind. *)
Fixpoint pad_data {E : Type} (zero : E) (s : list Z) (pad_width : list (Z * Z))
    (d : list E) : list E :=
  match s, pad_width with
  | n :: s', (before, after) :: pads' =>
      let inner := Z.to_nat (prod_shape s') in
      let inner' := Z.to_nat (prod_shape (padded_shape s' pads')) in
      replicate (Z.to_nat before * inner') zero
        ++ concat (map (pad_data zero s' pads') (chunks inner (Z.to_nat n) d))
        ++ replicate (Z.to_nat after * inner') zero
  | _, _ => d
  end.

Section Reshape.
Context {E : Type} `{Dtype E} (env : Env E).

(** [cv2.cvtColor(img, cv2.COLOR_BGR2GRAY)]: a non-empty image of three or
    four channels and of a depth OpenCV converts becomes a two-dimensional
    one. *)
Definition cv2_cvtColor_BGR2GRAY (img : ndarray E) : result (ndarray E) :=
  match shape img with
  | [h; w; c] =>
      if (0 <? h) && (0 <? w) && ((c =? 3) || (c =? 4)) && cv2_cvtColor_depth env
      then Ok (mk_ndarray [h; w] (cvtColor_data env img))
      else Raise Cv2Error
  | _ => Raise Cv2Error
  end.

(** [cv2.resize(img, dsize)] with [dsize = (width, height)]: OpenCV asserts
    that the source is not empty, that the scale along each axis is positive
    and that it can resize the depth; a single channel comes back as a
    two-dimensional array. *)
Definition cv2_resize (img : ndarray E) (dsize : Z * Z) : result (ndarray E) :=
  let '(dw, dh) := dsize in
  match shape img with
  | [h; w] =>
      if (0 <? h) && (0 <? w) && (0 <? dw) && (0 <? dh) && cv2_resize_depth env
      then Ok (mk_ndarray [dh; dw] (resize_data env img dw dh))
      else Raise Cv2Error
  | [h; w; c] =>
      if (0 <? h) && (0 <? w) && (0 <? c) && (c <=? 512) && (0 <? dw) && (0 <? dh)
         && cv2_resize_depth env
      then Ok (mk_ndarray (if c =? 1 then [dh; dw] else [dh; dw; c])
                          (resize_data env img dw dh))
      else Raise Cv2Error
  | _ => Raise Cv2Error
  end.

(** [np.pad(img, pad_width, 'constant')] with one pair per axis. *)
Definition np_pad (img : ndarray E) (pad_width : list (Z * Z)) : result (ndarray E) :=
  if existsb (fun p => (fst p <? 0) || (snd p <? 0)) pad_width then
    Raise (ValueError ["index can't contain negative values"])
  else if negb (length pad_width =? length (shape img))%nat then
    Raise (ValueError ["operands could not be broadcast together"])
  else
    Ok (mk_ndarray (padded_shape (shape img) pad_width)
                   (pad_data (lit (0 # 1)) (shape img) pad_width (data img))).

(** Keras' [image.img_to_array]: a float array of three dimensions. *)
Definition img_to_array (img : ndarray E) : result (ndarray E) :=
  match shape img with
  | [h; w; c] => Ok img
  | [h; w] => Ok (mk_ndarray [h; w; 1] (data img))
  | s => Raise (ValueError ["Unsupported image shape: " +:+ tuple_repr s])
  end.

(** [np.expand_dims(a, axis=0)] *)
Definition expand_dims0 (a : ndarray E) : ndarray E :=
  mk_ndarray (1 :: shape a) (data a).

(** Lines 200-204: the size handed to [cv2.resize], as (width, height). *)
Definition scaled_dsize (target_size : Z * Z) (img : ndarray E) : result (Z * Z) :=
  let? h := shape_at img 0 in
  let? factor_0 := py_truediv (fst target_size) h in
  let? w := shape_at img 1 in
  let? factor_1 := py_truediv (snd target_size) w in
  let factor := py_min factor_0 factor_1 in
  let? dw := py_int (py_mul_int_float w factor) in
  let? dh := py_int (py_mul_int_float h factor) in
  Ok (dw, dh).

(** Lines 208-215: the widths handed to [np.pad] for the resized [img]. *)
Definition pad_width (target_size : Z * Z) (img : ndarray E) (grayscale : bool)
    : result (list (Z * Z)) :=
  let? h := shape_at img 0 in
  let diff_0 := fst target_size - h in
  let? w := shape_at img 1 in
  let diff_1 := snd target_size - w in
  if negb grayscale then
    Ok [(diff_0 / 2, diff_0 - diff_0 / 2); (diff_1 / 2, diff_1 - diff_1 / 2); (0, 0)]
  else
    Ok [(diff_0 / 2, diff_0 - diff_0 / 2); (diff_1 / 2, diff_1 - diff_1 / 2)].

Definition reshape_face (img : ndarray E) (reg : region) (target_size : Z * Z)
    (grayscale : bool) : result (ndarray E * region) :=
  let? img := (if grayscale then cv2_cvtColor_BGR2GRAY img else Ok img) in
  let? dsize := scaled_dsize target_size img in
  let? img := cv2_resize img dsize in
  let? pads := pad_width target_size img grayscale in
  let? img := np_pad img pads in
  let? img :=
    (if bool_decide (take 2 (shape img) <> [fst target_size; snd target_size])
     then cv2_resize img target_size
     else Ok img) in
  let? img_pixels := img_to_array img in
  let img_pixels := expand_dims0 img_pixels in
  let img_pixels := map_data (fun x => el_div x (lit (255 # 1))) img_pixels in
  Ok (img_pixels, reg).

End Reshape.

(** ** preprocess_face *)

Section Preprocess.
Context {E : Type} `{Dtype E} (env : Env E).

(** [img.copy()]: a new array object with the same content. *)
Definition np_copy (img : pyval) : M E loc :=
  match img with
  | PArr l => let* a := deref l in alloc a
  | _ => raise AttributeError
  end.

(** [reshape_face] writes none of the arrays it is given; its tensor is a new
    object. *)
Definition call_reshape_face (img : loc) (reg : region) (target_size : Z * Z)
    (grayscale : bool) : M E (loc * region) :=
  let* a := deref img in
  let* out := lift (reshape_face env a reg target_size grayscale) in
  let* t := alloc (fst out) in
  ret (t, snd out).

Definition preprocess_face (img : pyval) (target_size : Z * Z) (grayscale : bool)
    (enforce_detection : bool) (detector_backend : string) (align : bool)
    : M E (loc * region) :=
  let* img := load_image env img in
  let* base_img := np_copy img in
  let* detected_faces := detect_faces env img enforce_detection detector_backend align in
  let* face := lift (py_index detected_faces 0) in
  let img := fst face in
  let reg := snd face in
  let* a := deref img in
  let* z := lift (zero_extent a) in
  let* img := (if z then np_copy (PArr base_img) else ret img) in
  call_reshape_face img reg target_size grayscale.

End Preprocess.

(** ** initialize_input *)

(** The arguments of [initialize_input]: anything, lists included. *)
#[warnings="-register-all"]
Inductive pyobj : Type :=
| ONone
| OStr (s : string)
| OArr (l : loc)
| OList (items : list pyobj).

(** Truth value of an array element, as [ndarray.any] reads it. *)
Class Truth (E : Type) : Type := {
  truthy : E -> bool
}.

Section InitializeInput.
Context {E : Type} `{Truth E}.

(** [arr.any()] *)
Definition np_any (a : ndarray E) : bool := existsb truthy (data a).

Definition is_list (o : pyobj) : bool :=
  match o with
  | OList _ => true
  | _ => false
  end.

(** [(type(img2_path) == str and img2_path != None)
     or (isinstance(img2_path, np.ndarray) and img2_path.any())] *)
Definition second_image_given (img2_path : pyobj) : M E bool :=
  match img2_path with
  | OStr _ => ret true
  | OArr l => let* a := deref l in ret (np_any a)
  | _ => ret false
  end.

Definition initialize_input (img1_path img2_path : pyobj) : M E (pyobj * bool) :=
  match img1_path with
  | OList items => ret (OList items, true)
  | _ =>
      let* given := second_image_given img2_path in
      if given then ret (OList [OList [img1_path; img2_path]], false)
      else ret (OList [img1_path], false)
  end.

End InitializeInput.

(** ** find_input_shape *)

(** What a layer declares as its input shape: ints and [None] in tuples or
    lists, possibly nested. *)
#[warnings="-register-all"]
Inductive pyshape : Type :=
| SNone
| SInt (n : Z)
| STuple (items : list pyshape)
| SList (items : list pyshape).

(** [x[i]] *)
Definition shape_index (x : pyshape) (i : nat) : result pyshape :=
  match x with
  | STuple items | SList items => py_index items i
  | _ => Raise TypeError
  end.

(** [x[1:3]] *)
Definition shape_slice_1_3 (x : pyshape) : result pyshape :=
  match x with
  | STuple items => Ok (STuple (take 2 (drop 1 items)))
  | SList items => Ok (SList (take 2 (drop 1 items)))
  | _ => Raise TypeError
  end.

Definition is_pylist (x : pyshape) : bool :=
  match x with
  | SList _ => true
  | _ => false
  end.

(** [tuple(x)] of a list. *)
Definition to_tuple (x : pyshape) : pyshape :=
  match x with
  | SList items => STuple items
  | _ => x
  end.

(** [model] is the list of its layers' declared input shapes;
    [tf_major_version] and [tf_minor_version] are the module's globals. *)
Definition find_input_shape (tf_major_version tf_minor_version : Z)
    (model : list pyshape) : result pyshape :=
  let? input_shape := py_index model 0 in
  let? input_shape :=
    (if is_pylist input_shape then
       let? first := shape_index input_shape 0 in shape_slice_1_3 first
     else shape_slice_1_3 input_shape) in
  let? input_shape :=
    (if (tf_major_version =? 2) && (5 <=? tf_minor_version) then
       let? x := shape_index input_shape 0 in
       let? y := shape_index input_shape 1 in
       Ok (STuple [y; x])
     else Ok input_shape) in
  Ok (if is_pylist input_shape then to_tuple input_shape else input_shape).

(** ** initialize_folder *)

(** The part of the operating system the function sees. [os.makedirs] is the
    system's: it may fail, and what it creates on success is its business. *)
Record os_state : Type := mk_os {
  environ : gmap string string;
  paths : gset string;
  stdout : list (list string)
}.

Record Os : Type := mk_Os {
  (** [Path.home()] *)
  path_home : string;
  (** [os.makedirs(path)] on the set of existing paths. *)
  os_makedirs : string -> gset string -> result (gset string)
}.

Section InitializeFolder.
Context (os : Os).

(** [str(os.getenv('DEEPFACE_HOME', default=Path.home()))] *)
Definition get_deepface_home (w : os_state) : string :=
  match environ w !! "DEEPFACE_HOME" with
  | Some home => home
  | None => path_home os
  end.

(** [if not os.path.exists(p): os.makedirs(p); print("Directory ", home, suffix, " created")] *)
Definition ensure_directory (home suffix : string) (w : os_state) : result os_state :=
  if bool_decide (home +:+ suffix ∈ paths w) then Ok w
  else
    let? created := os_makedirs os (home +:+ suffix) (paths w) in
    Ok (mk_os (environ w) created
              (stdout w ++ [["Directory "; home; suffix +:+ " created"]])).

Definition initialize_folder (w : os_state) : result os_state :=
  let home := get_deepface_home w in
  let? w := ensure_directory home "/.deepface" w in
  ensure_directory home "/.deepface/weights" w.

End InitializeFolder.

(** ** The wording of the specification, for comparison *)

(** "Everything after the first comma" of a string; [None] without a comma. *)
Fixpoint after_first_comma (s : string) : option string :=
  match s with
  | EmptyString => None
  | String a s' => if Ascii.eqb a comma then Some s' else after_first_comma s'
  end.

Fixpoint comma_free (s : string) : bool :=
  match s with
  | EmptyString => true
  | String a s' => negb (Ascii.eqb a comma) && comma_free s'
  end.

(** The normalisation schemes the source names. *)
Definition recognized_schemes : list string :=
  ["base"; "raw"; "Facenet"; "Facenet2018"; "VGGFace"; "VGGFace2"; "ArcFace"].

(** An image: at least two dimensions, read as height and width. *)
Definition zero_height_or_width {E : Type} (a : ndarray E) : bool :=
  match shape a with
  | h :: w :: _ => (h =? 0) || (w =? 0)
  | _ => false
  end.

Definition is_image {E : Type} (a : ndarray E) : bool :=
  match shape a with
  | _ :: _ :: _ => true
  | _ => false
  end.

(** What the detector reports for an image: an exception counts as no face. *)
Definition faces_found {E : Type} (env : Env E) (face_detector : nat)
    (detector_backend : string) (a : ndarray E) (align : bool)
    : list (ndarray E * region) :=
  match detector_detect_faces env face_detector detector_backend a align with
  | Ok faces => faces
  | Raise _ => []
  end.

(** A crop with at least two dimensions, none of the first two being zero. *)
Definition has_extent {E : Type} (a : ndarray E) : bool :=
  is_image a && negb (zero_height_or_width a).

(** [b] has the shape and the number of elements of [a]. *)
Definition same_layout {E : Type} (a b : ndarray E) : Prop :=
  shape b = shape a /\ length (data b) = length (data a).

(** ** A dtype and an environment to run the model on *)

(** NumPy's float64. The two reductions accumulate from left to right;
    NumPy's pairwise summation may differ from them in the last bits. *)
Definition float64_lit (q : Q) : float :=
  PrimFloat.div (py_float_of_int (Qnum q)) (py_float_of_int (Z.pos (Qden q))).

Definition float64_mean (d : list float) : float :=
  PrimFloat.div (fold_left PrimFloat.add d 0%float)
                (py_float_of_int (Z.of_nat (length d))).

Definition float64_std (d : list float) : float :=
  let m := float64_mean d in
  PrimFloat.sqrt
    (float64_mean (map (fun x => PrimFloat.mul (PrimFloat.sub x m) (PrimFloat.sub x m)) d)).

#[export] Instance float64 : Dtype float := {
  lit := float64_lit;
  el_mul := PrimFloat.mul;
  el_div := PrimFloat.div;
  el_sub := PrimFloat.sub;
  np_mean := float64_mean;
  np_std := float64_std
}.

Definition filled (s : list Z) (x : float) : ndarray float :=
  mk_ndarray s (replicate (Z.to_nat (prod_shape s)) x).

(** A stand-in for the outside world that keeps the payload visible: no file
    exists, a payload decodes to its character codes, a buffer of [n > 0]
    bytes decodes to a black colour image of [n] rows and one column, the
    only backend is "opencv", the detector is [detect], and the OpenCV
    kernels produce black pixels. The arrays are float64: [cv2.resize] takes
    them, [cv2.cvtColor] does not. *)
Definition demo_env (detect : ndarray float -> result (list (ndarray float * region)))
    : Env float :=
  {| os_path_isfile := fun _ => false;
     cv2_imread := fun _ => None;
     base64_b64decode := fun p => Ok (map (fun c => Z.of_nat (nat_of_ascii c)) (list_ascii_of_string p));
     cv2_imdecode := fun buf => match buf with
                                | [] => Ok None
                                | _ => Ok (Some (filled [Z.of_nat (length buf); 1; 3] 0%float))
                                end;
     build_model := fun b => if String.eqb b "opencv" then Ok 0%nat
                             else Raise (ValueError ["invalid detector_backend passed - " +:+ b]);
     detector_detect_faces := fun _ _ a _ => detect a;
     cvtColor_data := fun a => match shape a with
                               | [h; w; _] => replicate (Z.to_nat (h * w)) 0%float
                               | _ => []
                               end;
     resize_data := fun a dw dh => replicate (Z.to_nat (dw * dh * prod_shape (drop 2 (shape a)))) 0%float;
     cv2_cvtColor_depth := false;
     cv2_resize_depth := true |}.

Definition no_face : ndarray float -> result (list (ndarray float * region)) :=
  fun _ => Ok [].

(** A detector that reports a proper crop and then one without width. *)
Definition one_flat_face : ndarray float -> result (list (ndarray float * region)) :=
  fun _ => Ok [(filled [3; 3; 3] 0%float, [1; 1; 3; 3]); (filled [4; 0; 3] 0%float, [1; 2; 0; 4])].

Definition empty_state : state float := mk_state ∅ [].

(** A state holding one array, at reference 0. *)
Definition one_array (a : ndarray float) : state float :=
  mk_state {[ 0%nat := a ]} [].

(** The stand-in world with one file in it, which [cv2.imread] reads as
    [content]. *)
Definition file_env (path : string) (content : option (ndarray float)) : Env float :=
  {| os_path_isfile := String.eqb path;
     cv2_imread := fun p => if String.eqb path p then content else None;
     base64_b64decode := base64_b64decode (demo_env no_face);
     cv2_imdecode := cv2_imdecode (demo_env no_face);
     build_model := build_model (demo_env no_face);
     detector_detect_faces := detector_detect_faces (demo_env no_face);
     cvtColor_data := cvtColor_data (demo_env no_face);
     resize_data := resize_data (demo_env no_face);
     cv2_cvtColor_depth := cv2_cvtColor_depth (demo_env no_face);
     cv2_resize_depth := cv2_resize_depth (demo_env no_face) |}.

(** A detector that reports two proper crops. *)
Definition two_faces : ndarray float -> result (list (ndarray float * region)) :=
  fun _ => Ok [(filled [3; 3; 3] 0%float, [1; 1; 3; 3]); (filled [2; 4; 3] 0%float, [0; 1; 4; 2])].

(** A detector whose only crop has no width. *)
Definition flat_first_face : ndarray float -> result (list (ndarray float * region)) :=
  fun _ => Ok [(filled [4; 0; 3] 0%float, [1; 2; 0; 4])].

(** A float is true unless it is zero; NaN is true. *)
#[export] Instance float64_truth : Truth float := {
  truthy := fun x => negb (PrimFloat.eqb x 0%float)
}.

(** A system whose home is "/home/u" and on which [os.makedirs] creates the
    path it is given, or fails when the path exists. *)
Definition simple_os : Os :=
  {| path_home := "/home/u";
     os_makedirs := fun p fs => if bool_decide (p ∈ fs) then Raise (ValueError ["File exists: "; p])
                                else Ok ({[ p ]} ∪ fs) |}.

(** The stand-in world in which [cv2.resize] produces white pixels, so that
    the content can be told from the padding. *)
Definition white_env : Env float :=
  {| os_path_isfile := os_path_isfile (demo_env no_face);
     cv2_imread := cv2_imread (demo_env no_face);
     base64_b64decode := base64_b64decode (demo_env no_face);
     cv2_imdecode := cv2_imdecode (demo_env no_face);
     build_model := build_model (demo_env no_face);
     detector_detect_faces := detector_detect_faces (demo_env no_face);
     cvtColor_data := cvtColor_data (demo_env no_face);
     resize_data := fun a dw dh =>
       replicate (Z.to_nat (dw * dh * prod_shape (drop 2 (shape a)))) 255%float;
     cv2_cvtColor_depth := false;
     cv2_resize_depth := true |}.

(** A 2x2 colour image fitted into 6 rows and 9 columns: six white rows, each
    with one black pixel in front and two behind. *)
Definition fitted_tensor : ndarray float :=
  mk_ndarray [1; 6; 9; 3]
    (concat (replicate 6 (replicate 3 0%float ++ replicate 18 1%float ++ replicate 6 0%float))).

(** * Properties *)

Ltac run := unfold bind, ret, raise, lift, deref, store, log, alloc; simpl.

(** ** load_image *)

Section LoaderFacts.
Context {E : Type} (env : Env E).

Lemma base64_test_trace (img : pyval) (st st' : state E) (r : result bool) :
  base64_test img st = (r, st') -> st' = st.
Proof.
  destruct img as [| s | l]; unfold base64_test; run.
  - intros [= _ <-]; reflexivity.
  - intros [= _ <-]; reflexivity.
  - destruct (heap st !! l) as [a |]; [| intros [= _ <-]; reflexivity].
    destruct (np_len a); intros [= _ <-]; reflexivity.
Qed.

Lemma new_object_trace (o : option (ndarray E)) (st st' : state E) (r : result pyval) :
  new_object o st = (r, st') -> trace st' = trace st.
Proof.
  destruct o; unfold new_object; run; intros [= _ <-]; reflexivity.
Qed.

Lemma decode_payload_trace (p : string) (st st' : state E) (r : result pyval) :
  decode_payload env p st = (r, st') -> trace st' = trace st.
Proof.
  unfold decode_payload; run.
  destruct (base64_b64decode env p) as [buf | e]; [| intros [= _ <-]; reflexivity].
  destruct (cv2_imdecode env buf) as [o | e]; [| intros [= _ <-]; reflexivity].
  apply new_object_trace.
Qed.

(** Loading an image never talks to a detector. *)
Lemma load_image_trace (img : pyval) (st st' : state E) (r : result pyval) :
  load_image env img st = (r, st') -> trace st' = trace st.
Proof.
  unfold load_image, bind.
  destruct (base64_test img st) as [[b | e] st1] eqn:Hb;
    apply base64_test_trace in Hb; subst st1; [| intros [= _ <-]; reflexivity].
  destruct b.
  - destruct img as [| s | l]; try (intros [= _ <-]; reflexivity).
    unfold loadBase64Img, bind, lift.
    destruct (py_index (split_on comma s) 1); [| intros [= _ <-]; reflexivity].
    apply decode_payload_trace.
  - destruct img as [| s | l]; simpl; try (intros [= _ <-]; reflexivity).
    destruct (os_path_isfile env s); simpl; [| intros [= _ <-]; reflexivity].
    apply new_object_trace.
Qed.

Lemma split_on_comma_free_head (p rest : string) :
  comma_free p = true ->
  rest = EmptyString \/ (exists r, rest = String comma r) ->
  exists fs, split_on comma (p +:+ rest) = p :: fs.
Proof.
  intros Hp Hrest. induction p as [| a p IH]; simpl in *.
  - destruct Hrest as [-> | [r ->]]; simpl; eauto.
  - apply andb_true_iff in Hp as [Ha Hp]. apply negb_true_iff in Ha.
    rewrite Ha. destruct (IH Hp) as [fs ->]. eauto.
Qed.

Lemma split_on_first_comma (hd tl : string) :
  comma_free hd = true ->
  split_on comma (hd +:+ String comma tl) = hd :: split_on comma tl.
Proof.
  intros Hhd. induction hd as [| a hd IH]; simpl in *.
  - reflexivity.
  - apply andb_true_iff in Hhd as [Ha Hhd]. apply negb_true_iff in Ha.
    rewrite Ha, (IH Hhd). reflexivity.
Qed.

(** C4. A raw pixel array goes through [load_image] untouched: the result is
    the very same object, no array is created and nothing is raised. *)
Theorem load_image_ndarray_identity (st : state E) (l : loc) (a : ndarray E) :
  heap st !! l = Some a ->
  shape a <> [] ->
  load_image env (PArr l) st = (Ok (PArr l), st).
Proof.
  intros Hl Hs. unfold load_image, base64_test; run. rewrite Hl.
  unfold np_len. destruct (shape a) as [| n s']; [congruence |].
  simpl. rewrite andb_false_r. reflexivity.
Qed.

(** C8, as amended. A string of more than 11 characters that starts with
    "data:image/" and holds a comma: the text between the first comma and the
    next one (or the end of the string) is the base64 payload; it is decoded
    to bytes and the bytes are decoded as an image, which is a new array
    ([None] when the buffer holds no image). With a single comma the payload
    is everything after it. *)
Theorem load_image_data_uri (st : state E) (hd p rest : string) :
  comma_free hd = true ->
  comma_free p = true ->
  rest = EmptyString \/ (exists r, rest = String comma r) ->
  is_data_uri (hd +:+ String comma (p +:+ rest)) = true ->
  load_image env (PStr (hd +:+ String comma (p +:+ rest))) st =
    match base64_b64decode env p with
    | Raise e => (Raise e, st)
    | Ok buf =>
        match cv2_imdecode env buf with
        | Raise e => (Raise e, st)
        | Ok None => (Ok PNone, st)
        | Ok (Some a) =>
            (Ok (PArr (fresh (dom (heap st)))),
             mk_state (<[fresh (dom (heap st)) := a]> (heap st)) (trace st))
        end
    end.
Proof.
  intros Hhd Hp Hrest Huri.
  unfold load_image, base64_test; run. rewrite Huri.
  unfold loadBase64Img; run.
  rewrite (split_on_first_comma _ _ Hhd).
  destruct (split_on_comma_free_head p rest Hp Hrest) as [fs ->].
  unfold py_index; simpl. unfold decode_payload; run.
  destruct (base64_b64decode env p) as [buf | e]; [| reflexivity].
  destruct (cv2_imdecode env buf) as [[a |] | e]; reflexivity.
Qed.

End LoaderFacts.

Lemma load_image_ndarray_identity_witness :
  load_image (demo_env no_face) (PArr 0%nat) (one_array (filled [2; 2; 3] 0%float))
  = (Ok (PArr 0%nat), one_array (filled [2; 2; 3] 0%float)).
Proof.
  apply (load_image_ndarray_identity (demo_env no_face) _ 0%nat (filled [2; 2; 3] 0%float)).
  - reflexivity.
  - discriminate.
Defined.

Lemma load_image_data_uri_witness :
  load_image (demo_env no_face) (PStr "data:image/png;base64,AAAA") empty_state
  = (Ok (PArr 0%nat), one_array (filled [4; 1; 3] 0%float)).
Proof.
  apply (load_image_data_uri (demo_env no_face) empty_state "data:image/png;base64" "AAAA" "").
  - reflexivity.
  - reflexivity.
  - left; reflexivity.
  - reflexivity.
Defined.

(** C8, as stated, fails twice. Without a comma the string starts with the
    prefix and yet nothing is decoded: [uri.split(',')[1]] raises. With two
    commas the payload handed to the decoders is the text between them, not
    everything after the first. *)
Lemma load_image_data_uri_counterexample :
  (forall (E : Type) (env : Env E) (st : state E),
     load_image env (PStr "data:image/png;base64") st = (Raise IndexError, st))
  /\ after_first_comma "data:image/png;base64,AAAA,BBBB" = Some "AAAA,BBBB"
  /\ (forall (E : Type) (env : Env E) (st : state E),
        load_image env (PStr "data:image/png;base64,AAAA,BBBB") st
        = decode_payload env "AAAA" st)
  /\ decode_payload (demo_env no_face) "AAAA" empty_state
     <> decode_payload (demo_env no_face) "AAAA,BBBB" empty_state.
Proof.
  repeat split; try reflexivity. vm_compute. discriminate.
Qed.

(** ** detect_faces *)

Section DetectorFacts.
Context {E : Type} (env : Env E).

Lemma whole_image_region_image (st : state E) (l : loc) (a : ndarray E) (h w : Z) (rest : list Z) :
  heap st !! l = Some a ->
  shape a = h :: w :: rest ->
  whole_image_region l st = (Ok [0; 0; h; w], st).
Proof.
  intros Hl Hs. unfold whole_image_region, shape_at, py_index; run.
  rewrite Hl, Hs. reflexivity.
Qed.

Lemma zero_extent_image (a : ndarray E) :
  is_image a = true -> zero_extent a = Ok (zero_height_or_width a).
Proof.
  unfold is_image, zero_extent, zero_height_or_width, shape_at, py_index.
  destruct (shape a) as [| h [| w rest]]; try discriminate. intros _. simpl.
  destruct (h =? 0); reflexivity.
Qed.

(** The crops become objects of their own; nothing that was there is lost,
    and the order of the pairs is kept. *)
Lemma alloc_faces_spec (fs : list (ndarray E * region)) (st : state E) :
  exists ls st',
    alloc_faces fs st = (Ok ls, st')
    /\ trace st' = trace st
    /\ heap st ⊆ heap st'
    /\ Forall2 (fun lr cr => lr.2 = cr.2 /\ heap st' !! lr.1 = Some cr.1) ls fs.
Proof.
  revert st. induction fs as [| [crop reg] fs IH]; intros st.
  - exists [], st. repeat split; [reflexivity | constructor].
  - simpl. unfold bind at 1. unfold alloc at 1.
    set (l := fresh (dom (heap st))).
    set (st1 := mk_state (<[l := crop]> (heap st)) (trace st)).
    destruct (IH st1) as (ls & st' & Hrun & Htr & Hsub & Hall).
    exists ((l, reg) :: ls), st'.
    unfold bind, ret. rewrite Hrun. repeat split.
    + rewrite Htr. reflexivity.
    + etrans; [| exact Hsub]. simpl.
      apply insert_subseteq, not_elem_of_dom, is_fresh.
    + constructor; [| exact Hall]. simpl. split; [reflexivity |].
      eapply lookup_weaken; [| exact Hsub]. simpl. apply lookup_insert_eq.
Qed.

Lemma alloc_faces_nil (st : state E) : alloc_faces [] st = (Ok [], st).
Proof. reflexivity. Qed.

Lemma zero_faces_handling_fallback (st : state E) (l : loc) (a : ndarray E) (h w : Z)
    (rest : list Z) :
  heap st !! l = Some a ->
  shape a = h :: w :: rest ->
  zero_faces_handling l true [] st = (Ok [(l, [0; 0; h; w])], st).
Proof.
  intros Hl Hs. unfold zero_faces_handling. simpl. unfold bind.
  rewrite (whole_image_region_image _ _ _ _ _ _ Hl Hs). reflexivity.
Qed.

Lemma zero_faces_handling_found (st : state E) (l : loc) (enforce_detection : bool)
    (faces : list (loc * region)) :
  faces <> [] ->
  zero_faces_handling l enforce_detection faces st = (Ok faces, st).
Proof.
  intros Hne. unfold zero_faces_handling. destruct faces; [congruence | reflexivity].
Qed.

Lemma check_faces_extent (st : state E) (enforce_detection : bool) (l : loc)
    (r : region) (a : ndarray E) (h w : Z) (rest : list Z) :
  heap st !! l = Some a ->
  shape a = h :: w :: rest ->
  h <> 0 -> w <> 0 ->
  check_faces enforce_detection [(l, r)] st = (Ok tt, st).
Proof.
  intros Hl Hs Hh Hw. simpl. unfold bind, deref. rewrite Hl.
  unfold lift, zero_extent, shape_at, py_index. rewrite Hs. simpl.
  apply Z.eqb_neq in Hh, Hw. rewrite Hh, Hw. reflexivity.
Qed.

(** Up to the zero-faces handling: the image is loaded, the backend is built
    and asked once, and what it reports is [faces_found]. *)
Lemma detect_faces_after_detection (img : pyval) (enforce_detection : bool)
    (detector_backend : string) (align : bool) (st st1 : state E) (l : loc)
    (a : ndarray E) (h w : Z) (rest : list Z) (face_detector : nat) :
  load_image env img st = (Ok (PArr l), st1) ->
  heap st1 !! l = Some a ->
  shape a = h :: w :: rest ->
  String.eqb detector_backend "skip" = false ->
  build_model env detector_backend = Ok face_detector ->
  detect_faces env img enforce_detection detector_backend align st =
    (let* faces := alloc_faces (faces_found env face_detector detector_backend a align) in
     let* faces := zero_faces_handling l enforce_detection faces in
     check_faces enforce_detection faces ;;
     ret faces)
      (mk_state (heap st1)
         ((trace st1 ++ [EvBuild detector_backend]) ++ [EvDetect detector_backend l align])).
Proof.
  intros Hload Hl Hs Hskip Hbuild.
  unfold detect_faces. unfold bind at 1. rewrite Hload.
  unfold bind at 1. rewrite (whole_image_region_image _ _ _ _ _ _ Hl Hs).
  rewrite Hskip. unfold call_build_model.
  unfold bind at 1. unfold bind at 1. unfold log at 1. unfold lift at 1. rewrite Hbuild.
  set (st2 := mk_state (heap st1) (trace st1 ++ [EvBuild detector_backend])).
  unfold bind at 1. unfold try_except, call_detect_faces.
  unfold bind at 1. unfold log at 1.
  set (st3 := mk_state (heap st2) (trace st2 ++ [EvDetect detector_backend l align])).
  unfold bind at 1. unfold deref at 1.
  change (heap st3 !! l) with (heap st1 !! l). rewrite Hl.
  unfold bind at 1. unfold lift at 1. unfold faces_found.
  destruct (detector_detect_faces env face_detector detector_backend a align) as [fs | e].
  - destruct (alloc_faces_spec fs st3) as (ls & st4 & Hrun & _).
    subst st3 st2. simpl in Hrun. unfold bind. simpl. rewrite Hrun. reflexivity.
  - subst st3 st2. unfold bind. simpl. reflexivity.
Qed.

(** The loop stops at a crop without extent, and names its shape. *)
Lemma check_faces_degenerate (ls : list (loc * region)) (fs : list (ndarray E * region))
    (st : state E) :
  Forall2 (fun lr cr => lr.2 = cr.2 /\ heap st !! lr.1 = Some cr.1) ls fs ->
  Forall (fun cr => is_image cr.1 = true) fs ->
  Exists (fun cr => zero_height_or_width cr.1 = true) fs ->
  exists c r,
    (c, r) ∈ fs
    /\ zero_height_or_width c = true
    /\ check_faces true ls st = (Raise (ValueError [degenerate_message (shape c)]), st).
Proof.
  induction 1 as [| [l r] [c r'] ls fs [_ Hl] Hrest IH]; intros Himg Hex.
  - inversion Hex.
  - simpl in Hl. apply Forall_cons in Himg as [Hc Himg].
    destruct (zero_height_or_width c) eqn:Hz.
    + exists c, r'. split; [left |]. split; [exact Hz |].
      simpl. run. rewrite Hl, (zero_extent_image c Hc), Hz. reflexivity.
    + apply Exists_cons in Hex as [Hex | Hex]; [simpl in Hex; congruence |].
      destruct (IH Himg Hex) as (c' & r'' & Hin & Hz' & Hrun).
      exists c', r''. split; [right; exact Hin |]. split; [exact Hz' |].
      simpl. unfold bind at 1. unfold deref. rewrite Hl.
      unfold bind at 1. unfold lift. rewrite (zero_extent_image c Hc), Hz.
      simpl. exact Hrun.
Qed.

Lemma zero_height_or_width_image (c : ndarray E) :
  zero_height_or_width c = true -> is_image c = true.
Proof.
  unfold zero_height_or_width, is_image.
  destruct (shape c) as [| h [| w rest]]; [discriminate | discriminate | reflexivity].
Qed.

(** The loop passes the crops that have extent and stops at the first one
    that has none, with its shape in the message. *)
Lemma check_faces_first_degenerate (pre : list (ndarray E * region)) (c : ndarray E)
    (r : region) (post : list (ndarray E * region)) (ls : list (loc * region))
    (st : state E) :
  Forall2 (fun lr cr => lr.2 = cr.2 /\ heap st !! lr.1 = Some cr.1) ls
    (pre ++ (c, r) :: post) ->
  Forall (fun cr => has_extent cr.1 = true) pre ->
  zero_height_or_width c = true ->
  check_faces true ls st = (Raise (ValueError [degenerate_message (shape c)]), st).
Proof.
  revert ls. induction pre as [| [p rp] pre IH]; intros ls Hall Hpre Hz.
  - simpl in Hall. destruct ls as [| [l r'] ls]; [inversion Hall |].
    apply Forall2_cons in Hall as [[_ Hl] _]. simpl in Hl.
    simpl. unfold bind, deref, lift. rewrite Hl.
    rewrite (zero_extent_image c (zero_height_or_width_image c Hz)), Hz. reflexivity.
  - simpl in Hall. destruct ls as [| [l r'] ls]; [inversion Hall |].
    apply Forall2_cons in Hall as [[_ Hl] Hall]. simpl in Hl.
    apply Forall_cons in Hpre as [Hp Hpre]. simpl in Hp.
    unfold has_extent in Hp. apply andb_true_iff in Hp as [Hi Hnz].
    apply negb_true_iff in Hnz.
    simpl. unfold bind at 1. unfold deref. rewrite Hl.
    unfold bind at 1. unfold lift. rewrite (zero_extent_image p Hi), Hnz. simpl.
    exact (IH ls Hall Hpre Hz).
Qed.

End DetectorFacts.

Section DetectorClaims.
Context {E : Type} (env : Env E).

(** C3. With the backend "skip", whatever [align] and [enforce_detection]
    are, the result is the single pair of the loaded image itself (the same
    object) and the whole-image region [0, 0, height, width]; the state is the
    one [load_image] left, and no detector was built or asked. *)
Theorem detect_faces_skip (img : pyval) (enforce_detection align : bool)
    (st st1 : state E) (l : loc) (a : ndarray E) (h w : Z) (rest : list Z) :
  load_image env img st = (Ok (PArr l), st1) ->
  heap st1 !! l = Some a ->
  shape a = h :: w :: rest ->
  detect_faces env img enforce_detection "skip" align st = (Ok [(l, [0; 0; h; w])], st1)
  /\ trace st1 = trace st.
Proof.
  intros Hload Hl Hs. split.
  - unfold detect_faces. unfold bind at 1. rewrite Hload.
    unfold bind. rewrite (whole_image_region_image _ _ _ _ _ _ Hl Hs). reflexivity.
  - exact (load_image_trace env _ _ _ _ Hload).
Qed.

(** C1, what the code does instead. The detector finds no face and
    [enforce_detection] is true: nothing is raised; the call returns the
    whole image as the only face. *)
Theorem detect_faces_enforced_zero_faces (img : pyval) (detector_backend : string)
    (align : bool) (st st1 : state E) (l : loc) (a : ndarray E) (h w : Z)
    (rest : list Z) (face_detector : nat) :
  load_image env img st = (Ok (PArr l), st1) ->
  heap st1 !! l = Some a ->
  shape a = h :: w :: rest ->
  h <> 0 -> w <> 0 ->
  String.eqb detector_backend "skip" = false ->
  build_model env detector_backend = Ok face_detector ->
  faces_found env face_detector detector_backend a align = [] ->
  fst (detect_faces env img true detector_backend align st) = Ok [(l, [0; 0; h; w])].
Proof.
  intros Hload Hl Hs Hh Hw Hskip Hbuild Hnone.
  rewrite (detect_faces_after_detection env _ _ _ _ _ _ _ _ _ _ _ _ Hload Hl Hs Hskip Hbuild).
  rewrite Hnone. unfold bind at 1. rewrite alloc_faces_nil.
  unfold bind at 1.
  rewrite (zero_faces_handling_fallback _ l a h w rest) by (exact Hl || exact Hs).
  unfold bind at 1.
  rewrite (check_faces_extent _ true l _ a h w rest) by (exact Hl || exact Hs || exact Hh || exact Hw).
  reflexivity.
Qed.

(** C2, what the code does instead. The detector finds no face and
    [enforce_detection] is false: the call raises the "No face could be
    detected" error; no fallback is returned. *)
Theorem detect_faces_unenforced_zero_faces (img : pyval) (detector_backend : string)
    (align : bool) (st st1 : state E) (l : loc) (a : ndarray E) (h w : Z)
    (rest : list Z) (face_detector : nat) :
  load_image env img st = (Ok (PArr l), st1) ->
  heap st1 !! l = Some a ->
  shape a = h :: w :: rest ->
  String.eqb detector_backend "skip" = false ->
  build_model env detector_backend = Ok face_detector ->
  faces_found env face_detector detector_backend a align = [] ->
  fst (detect_faces env img false detector_backend align st)
  = Raise (ValueError [no_face_message]).
Proof.
  intros Hload Hl Hs Hskip Hbuild Hnone.
  rewrite (detect_faces_after_detection env _ _ _ _ _ _ _ _ _ _ _ _ Hload Hl Hs Hskip Hbuild).
  rewrite Hnone. unfold bind at 1. rewrite alloc_faces_nil. reflexivity.
Qed.

(** C7. Enforcement is on. The pairs the final loop goes through are the
    detector's, or the whole-image fallback pair when it found none. At the
    first pair whose crop has zero height or zero width the call fails with
    the error whose text is "Detected face shape is", the shape of that crop as
    Python prints a tuple, and the advice to set enforce_detection to False.
    In particular a fallback image without extent fails this way, with its own
    shape in the text. *)
Theorem detect_faces_degenerate_face (img : pyval) (detector_backend : string)
    (align : bool) (st st1 : state E) (l : loc) (a : ndarray E) (h w : Z)
    (rest : list Z) (face_detector : nat) (pairs : list (ndarray E * region)) :
  load_image env img st = (Ok (PArr l), st1) ->
  heap st1 !! l = Some a ->
  shape a = h :: w :: rest ->
  String.eqb detector_backend "skip" = false ->
  build_model env detector_backend = Ok face_detector ->
  pairs = match faces_found env face_detector detector_backend a align with
          | [] => [(a, [0; 0; h; w])]
          | found => found
          end ->
  (forall pre c r post,
      pairs = pre ++ (c, r) :: post ->
      Forall (fun cr => has_extent cr.1 = true) pre ->
      zero_height_or_width c = true ->
      fst (detect_faces env img true detector_backend align st)
      = Raise (ValueError ["Detected face shape is " +:+ tuple_repr (shape c)
                           +:+ ", Consider to set enforce_detection argument to False."]))
  /\ (faces_found env face_detector detector_backend a align = [] ->
      zero_height_or_width a = true ->
      fst (detect_faces env img true detector_backend align st)
      = Raise (ValueError ["Detected face shape is " +:+ tuple_repr (shape a)
                           +:+ ", Consider to set enforce_detection argument to False."])).
Proof.
  intros Hload Hl Hs Hskip Hbuild Hpairs.
  rewrite (detect_faces_after_detection env _ _ _ _ _ _ _ _ _ _ _ _ Hload Hl Hs Hskip Hbuild).
  set (st3 := mk_state (heap st1) _).
  assert (Hmain : forall pre c r post,
      pairs = pre ++ (c, r) :: post ->
      Forall (fun cr => has_extent cr.1 = true) pre ->
      zero_height_or_width c = true ->
      fst ((let* faces := alloc_faces (faces_found env face_detector detector_backend a align) in
            let* faces := zero_faces_handling l true faces in
            check_faces true faces ;; ret faces) st3)
      = Raise (ValueError [degenerate_message (shape c)])).
  { intros pre c r post Hsplit Hpre Hz.
    destruct (faces_found env face_detector detector_backend a align) as [| f fs] eqn:Hfound.
    - unfold bind at 1. rewrite alloc_faces_nil.
      unfold bind at 1.
      rewrite (zero_faces_handling_fallback st3 l a h w rest) by (exact Hl || exact Hs).
      assert (Hall : Forall2 (fun lr cr => lr.2 = cr.2 /\ heap st3 !! lr.1 = Some cr.1)
                       [(l, [0; 0; h; w])] (pre ++ (c, r) :: post)).
      { rewrite <- Hsplit, Hpairs. repeat constructor. exact Hl. }
      unfold bind.
      rewrite (check_faces_first_degenerate pre c r post _ st3 Hall Hpre Hz). reflexivity.
    - destruct (alloc_faces_spec (f :: fs) st3) as (ls & st4 & Hrun & _ & _ & Hall).
      unfold bind at 1. rewrite Hrun.
      assert (Hne : ls <> []).
      { apply Forall2_length in Hall. destruct ls; [discriminate | congruence]. }
      unfold bind at 1. rewrite (zero_faces_handling_found _ _ _ _ Hne).
      rewrite <- Hpairs, Hsplit in Hall.
      unfold bind.
      rewrite (check_faces_first_degenerate pre c r post ls st4 Hall Hpre Hz). reflexivity. }
  split; [exact Hmain |].
  intros Hnone Hz. rewrite Hnone in Hpairs.
  apply (Hmain [] a [0; 0; h; w] []); [exact Hpairs | constructor | exact Hz].
Qed.

End DetectorClaims.

Lemma detect_faces_skip_witness :
  detect_faces (demo_env no_face) (PStr "data:image/png;base64,AAAA") true "skip" false empty_state
  = (Ok [(0%nat, [0; 0; 4; 1])], one_array (filled [4; 1; 3] 0%float))
  /\ trace (one_array (filled [4; 1; 3] 0%float)) = trace empty_state.
Proof.
  apply (detect_faces_skip (demo_env no_face) (PStr "data:image/png;base64,AAAA") true false
           empty_state (one_array (filled [4; 1; 3] 0%float))
           0%nat (filled [4; 1; 3] 0%float) 4 1 [3]); reflexivity.
Defined.

Lemma detect_faces_enforced_zero_faces_witness :
  fst (detect_faces (demo_env no_face) (PArr 0%nat) true "opencv" true
         (one_array (filled [2; 2; 3] 0%float)))
  = Ok [(0%nat, [0; 0; 2; 2])].
Proof.
  apply (detect_faces_enforced_zero_faces (demo_env no_face) (PArr 0%nat) "opencv" true
           (one_array (filled [2; 2; 3] 0%float)) (one_array (filled [2; 2; 3] 0%float))
           0%nat (filled [2; 2; 3] 0%float) 2 2 [3] 0%nat);
    try reflexivity; lia.
Defined.

Lemma detect_faces_unenforced_zero_faces_witness :
  fst (detect_faces (demo_env no_face) (PArr 0%nat) false "opencv" true
         (one_array (filled [2; 2; 3] 0%float)))
  = Raise (ValueError [no_face_message]).
Proof.
  apply (detect_faces_unenforced_zero_faces (demo_env no_face) (PArr 0%nat) "opencv" true
           (one_array (filled [2; 2; 3] 0%float)) (one_array (filled [2; 2; 3] 0%float))
           0%nat (filled [2; 2; 3] 0%float) 2 2 [3] 0%nat); reflexivity.
Defined.

Lemma detect_faces_degenerate_face_witness :
  fst (detect_faces (demo_env one_flat_face) (PArr 0%nat) true "opencv" true
         (one_array (filled [5; 5; 3] 0%float)))
  = Raise (ValueError
             ["Detected face shape is (4, 0, 3), Consider to set enforce_detection argument to False."])
  /\ fst (detect_faces (demo_env no_face) (PArr 0%nat) true "opencv" true
            (one_array (filled [0; 5; 3] 0%float)))
     = Raise (ValueError
                ["Detected face shape is (0, 5, 3), Consider to set enforce_detection argument to False."]).
Proof.
  split.
  - exact (proj1 (detect_faces_degenerate_face (demo_env one_flat_face) (PArr 0%nat) "opencv"
                    true (one_array (filled [5; 5; 3] 0%float))
                    (one_array (filled [5; 5; 3] 0%float))
                    0%nat (filled [5; 5; 3] 0%float) 5 5 [3] 0%nat
                    [(filled [3; 3; 3] 0%float, [1; 1; 3; 3]);
                     (filled [4; 0; 3] 0%float, [1; 2; 0; 4])]
                    eq_refl eq_refl eq_refl eq_refl eq_refl eq_refl)
             [(filled [3; 3; 3] 0%float, [1; 1; 3; 3])] (filled [4; 0; 3] 0%float)
             [1; 2; 0; 4] [] eq_refl
             ltac:(repeat constructor) eq_refl).
  - exact (proj2 (detect_faces_degenerate_face (demo_env no_face) (PArr 0%nat) "opencv"
                    true (one_array (filled [0; 5; 3] 0%float))
                    (one_array (filled [0; 5; 3] 0%float))
                    0%nat (filled [0; 5; 3] 0%float) 0 5 [3] 0%nat
                    [(filled [0; 5; 3] 0%float, [0; 0; 0; 5])]
                    eq_refl eq_refl eq_refl eq_refl eq_refl eq_refl)
             eq_refl eq_refl).
Defined.

(** ** normalize_input *)

Section NormalizerFacts.
Context {E : Type} `{Dtype E}.

Lemma inplace_run (f : E -> E) (l : loc) (a : ndarray E) (st : state E) :
  heap st !! l = Some a ->
  inplace f l st = (Ok tt, overwritten st l (map_data f a)).
Proof. intros Hl. unfold inplace; run. rewrite Hl. reflexivity. Qed.

Lemma inplace_channel_run (f : E -> E) (k c : Z) (l : loc) (a : ndarray E) (st : state E) :
  heap st !! l = Some a ->
  last (shape a) = Some c ->
  k < c ->
  inplace_channel f k l st
  = (Ok tt, overwritten st l (mk_ndarray (shape a) (update_channel f k c (data a)))).
Proof.
  intros Hl Hc Hk. unfold inplace_channel; run. rewrite Hl, Hc.
  apply Z.ltb_lt in Hk. rewrite Hk. reflexivity.
Qed.

Lemma overwritten_lookup (st : state E) (l : loc) (b : ndarray E) :
  heap (overwritten st l b) !! l = Some b.
Proof. apply lookup_insert_eq. Qed.

Lemma overwritten_twice (st : state E) (l : loc) (b b' : ndarray E) :
  overwritten (overwritten st l b) l b' = overwritten st l b'.
Proof. unfold overwritten. simpl. rewrite insert_insert_eq. reflexivity. Qed.

Lemma not_recognized (s : string) :
  s ∉ recognized_schemes ->
  String.eqb s "base" = false /\ String.eqb s "raw" = false
  /\ String.eqb s "Facenet" = false /\ String.eqb s "Facenet2018" = false
  /\ String.eqb s "VGGFace" = false /\ String.eqb s "VGGFace2" = false
  /\ String.eqb s "ArcFace" = false.
Proof.
  unfold recognized_schemes. intros Hs.
  repeat (apply not_elem_of_cons in Hs as [?%String.eqb_neq Hs]). tauto.
Qed.

Lemma normalize_input_scaled_only (st : state E) (l : loc) (a : ndarray E) (s : string) :
  heap st !! l = Some a ->
  s ∉ recognized_schemes ->
  normalize_input l s st
  = (Ok l, overwritten st l (map_data times_255 a)).
Proof.
  intros Hl Hs. apply not_recognized in Hs as (Hb & Hr & Hf & Hf18 & Hv & Hv2 & Harc).
  unfold normalize_input. rewrite Hb, Hr, Hf, Hf18, Hv, Hv2, Harc. simpl.
  unfold bind. rewrite (inplace_run _ l a st Hl). reflexivity.
Qed.

Lemma normalize_input_raw (st : state E) (l : loc) (a : ndarray E) :
  heap st !! l = Some a ->
  normalize_input l "raw" st
  = (Ok l, overwritten st l (map_data times_255 a)).
Proof.
  intros Hl. unfold normalize_input. simpl.
  unfold bind. rewrite (inplace_run _ l a st Hl). reflexivity.
Qed.

End NormalizerFacts.

Section NormalizerClaims.
Context {E : Type} `{Dtype E}.

(** C10. A scheme name outside the recognized set raises nothing: the input,
    multiplied by 255 in place, is returned, exactly as for "raw". *)
Theorem normalize_input_unknown_scheme (st : state E) (l : loc) (a : ndarray E) (s : string) :
  heap st !! l = Some a ->
  s ∉ recognized_schemes ->
  normalize_input l s st = (Ok l, overwritten st l (map_data times_255 a))
  /\ normalize_input l s st = normalize_input l "raw" st.
Proof.
  intros Hl Hs.
  rewrite (normalize_input_raw st l a Hl).
  split; exact (normalize_input_scaled_only st l a s Hl Hs).
Qed.

(** C9, as amended. For every scheme other than "base" the caller's array is
    multiplied by 255 in place before anything else, so after the call it
    holds the scaled values: as they are for "raw", "Facenet" and unknown
    names, further rewritten in place for "Facenet2018", "ArcFace", and (on at
    least three channels) "VGGFace" and "VGGFace2". For these five schemes the
    returned array is the input object itself; "Facenet" returns another
    object. *)
Theorem normalize_input_in_place (st : state E) (l : loc) (a : ndarray E) :
  heap st !! l = Some a ->
  (forall s, s = "raw" \/ s ∉ recognized_schemes ->
     normalize_input l s st = (Ok l, overwritten st l (map_data times_255 a)))
  /\ (exists l' st',
        normalize_input l "Facenet" st = (Ok l', st')
        /\ l' <> l
        /\ heap st' !! l = Some (map_data times_255 a))
  /\ normalize_input l "Facenet2018" st
     = (Ok l, overwritten st l
                (map_data (fun x => el_sub x (lit (1 # 1)))
                   (map_data (fun x => el_div x (lit (1275 # 10))) (map_data times_255 a))))
  /\ normalize_input l "ArcFace" st
     = (Ok l, overwritten st l
                (map_data (fun x => el_div x (lit (128 # 1)))
                   (map_data (fun x => el_sub x (lit (1275 # 10))) (map_data times_255 a))))
  /\ (forall c, last (shape a) = Some c -> 3 <= c ->
        normalize_input l "VGGFace" st
        = (Ok l, overwritten st l
             (mk_ndarray (shape a)
                (update_channel (fun x => el_sub x (lit (1291863 # 10000))) 2 c
                   (update_channel (fun x => el_sub x (lit (1047624 # 10000))) 1 c
                      (update_channel (fun x => el_sub x (lit (935940 # 10000))) 0 c
                         (map times_255 (data a)))))))
        /\ normalize_input l "VGGFace2" st
           = (Ok l, overwritten st l
                (mk_ndarray (shape a)
                   (update_channel (fun x => el_sub x (lit (1310912 # 10000))) 2 c
                      (update_channel (fun x => el_sub x (lit (1038827 # 10000))) 1 c
                         (update_channel (fun x => el_sub x (lit (914953 # 10000))) 0 c
                            (map times_255 (data a)))))))).
Proof.
  intros Hl.
  assert (Hscaled : inplace times_255 l st = (Ok tt, overwritten st l (map_data times_255 a)))
    by exact (inplace_run _ l a st Hl).
  split; [| split; [| split; [| split]]].
  - intros s [-> | Hs].
    + exact (normalize_input_raw st l a Hl).
    + exact (normalize_input_scaled_only st l a s Hl Hs).
  - unfold normalize_input. simpl. unfold bind at 1. rewrite Hscaled.
    set (st1 := overwritten st l (map_data times_255 a)).
    assert (Hl1 : heap st1 !! l = Some (map_data times_255 a)) by apply overwritten_lookup.
    unfold bind at 1. unfold deref at 1. rewrite Hl1.
    set (t := fresh (dom (heap st1))).
    assert (Ht : t <> l).
    { intros Heq. apply (is_fresh (dom (heap st1))). fold t. rewrite Heq.
      apply elem_of_dom. exists (map_data times_255 a). exact Hl1. }
    unfold bind, alloc, deref. simpl. fold t. rewrite lookup_insert_eq. simpl.
    set (h2 := <[t := map_data (fun x => el_sub x (np_mean (map times_255 (data a))))
                      (map_data times_255 a)]> (heap st1)).
    assert (Hl2 : h2 !! l = Some (map_data times_255 a)).
    { unfold h2. rewrite lookup_insert_ne by exact Ht. exact Hl1. }
    assert (Ht2 : fresh (dom h2) <> l).
    { intros Heq. apply (is_fresh (dom h2)). rewrite Heq.
      apply elem_of_dom. exists (map_data times_255 a). exact Hl2. }
    eexists _, _. split; [reflexivity |]. split; [exact Ht2 |].
    simpl. rewrite lookup_insert_ne by exact Ht2. exact Hl2.
  - unfold normalize_input. simpl. unfold bind at 1. rewrite Hscaled.
    unfold bind at 1.
    rewrite (inplace_run _ l (map_data times_255 a)) by apply overwritten_lookup.
    rewrite overwritten_twice. unfold bind at 1.
    rewrite (inplace_run _ l (map_data (fun x => el_div x (lit (1275 # 10))) (map_data times_255 a)))
      by apply overwritten_lookup.
    rewrite overwritten_twice. reflexivity.
  - unfold normalize_input. simpl. unfold bind at 1. rewrite Hscaled.
    unfold bind at 1.
    rewrite (inplace_run _ l (map_data times_255 a)) by apply overwritten_lookup.
    rewrite overwritten_twice. unfold bind at 1.
    rewrite (inplace_run _ l (map_data (fun x => el_sub x (lit (1275 # 10))) (map_data times_255 a)))
      by apply overwritten_lookup.
    rewrite overwritten_twice. reflexivity.
  - intros c Hc H3. split.
    + unfold normalize_input. simpl. unfold bind at 1. rewrite Hscaled.
      unfold bind at 1.
      erewrite (inplace_channel_run _ 0 c l); [| apply overwritten_lookup | exact Hc | lia].
      rewrite overwritten_twice. unfold bind at 1.
      erewrite (inplace_channel_run _ 1 c l); [| apply overwritten_lookup | exact Hc | lia].
      rewrite overwritten_twice. unfold bind at 1.
      erewrite (inplace_channel_run _ 2 c l); [| apply overwritten_lookup | exact Hc | lia].
      rewrite overwritten_twice. reflexivity.
    + unfold normalize_input. simpl. unfold bind at 1. rewrite Hscaled.
      unfold bind at 1.
      erewrite (inplace_channel_run _ 0 c l); [| apply overwritten_lookup | exact Hc | lia].
      rewrite overwritten_twice. unfold bind at 1.
      erewrite (inplace_channel_run _ 1 c l); [| apply overwritten_lookup | exact Hc | lia].
      rewrite overwritten_twice. unfold bind at 1.
      erewrite (inplace_channel_run _ 2 c l); [| apply overwritten_lookup | exact Hc | lia].
      rewrite overwritten_twice. reflexivity.
Qed.

End NormalizerClaims.

Lemma normalize_input_unknown_scheme_witness :
  normalize_input 0%nat "imagenet"
    (one_array (mk_ndarray [1; 1; 1; 3] [0.5%float; 0.25%float; 1%float]))
  = (Ok 0%nat, one_array (mk_ndarray [1; 1; 1; 3] [127.5%float; 63.75%float; 255%float]))
  /\ normalize_input 0%nat "imagenet"
       (one_array (mk_ndarray [1; 1; 1; 3] [0.5%float; 0.25%float; 1%float]))
     = normalize_input 0%nat "raw"
         (one_array (mk_ndarray [1; 1; 1; 3] [0.5%float; 0.25%float; 1%float])).
Proof.
  assert (Hs : "imagenet" ∉ recognized_schemes).
  { unfold recognized_schemes. rewrite !not_elem_of_cons.
    repeat split; try discriminate. apply not_elem_of_nil. }
  exact (normalize_input_unknown_scheme
           (one_array (mk_ndarray [1; 1; 1; 3] [0.5%float; 0.25%float; 1%float]))
           0%nat (mk_ndarray [1; 1; 1; 3] [0.5%float; 0.25%float; 1%float]) "imagenet"
           eq_refl Hs).
Defined.

Lemma normalize_input_in_place_witness :
  normalize_input 0%nat "ArcFace"
    (one_array (mk_ndarray [1; 1; 1; 3] [0.5%float; 0.25%float; 1%float]))
  = (Ok 0%nat,
     one_array (mk_ndarray [1; 1; 1; 3] [0%float; (-0.498046875)%float; 0.99609375%float])).
Proof.
  exact (proj1 (proj2 (proj2 (proj2
           (normalize_input_in_place
              (one_array (mk_ndarray [1; 1; 1; 3] [0.5%float; 0.25%float; 1%float]))
              0%nat (mk_ndarray [1; 1; 1; 3] [0.5%float; 0.25%float; 1%float])
              eq_refl))))).
Defined.

(** C9, as stated, fails twice. Under "raw" an all-zero array holds, after the
    call, exactly what it held before. Under "VGGFace" a single-channel tensor
    makes the call raise [IndexError]: nothing is returned. *)
Lemma normalize_input_in_place_counterexample :
  normalize_input 0%nat "raw" (one_array (filled [1; 2; 2; 3] 0%float))
    = (Ok 0%nat, one_array (filled [1; 2; 2; 3] 0%float))
  /\ fst (normalize_input 0%nat "VGGFace" (one_array (filled [1; 2; 2; 1] 0.5%float)))
     = Raise IndexError.
Proof. split; reflexivity. Qed.

(** ** reshape_face *)

Section ReshapeFacts.
Context {E : Type} `{Dtype E} (env : Env E).

Lemma half_split (d : Z) :
  2 * (d / 2) <= d < 2 * (d / 2) + 2
  /\ d / 2 + (d - d / 2) = d
  /\ 0 <= (d - d / 2) - d / 2 <= 1.
Proof. Z.div_mod_to_equations. lia. Qed.

Lemma half_nonneg (d : Z) : 0 <= d -> 0 <= d / 2 /\ 0 <= d - d / 2.
Proof. intros Hd. Z.div_mod_to_equations. lia. Qed.

Lemma pad_width_image (target_size : Z * Z) (img : ndarray E) (grayscale : bool)
    (h w : Z) (rest : list Z) :
  shape img = h :: w :: rest ->
  pad_width target_size img grayscale
  = Ok ((((fst target_size - h) / 2, (fst target_size - h) - (fst target_size - h) / 2))
        :: ((snd target_size - w) / 2, (snd target_size - w) - (snd target_size - w) / 2)
        :: (if grayscale then [] else [(0, 0)])).
Proof.
  intros Hs. unfold pad_width, shape_at, py_index. rewrite Hs. simpl.
  destruct grayscale; reflexivity.
Qed.

(** Padding brings a resized image that fits into the target exactly to the
    target's height and width. *)
Lemma np_pad_to_target (target_size : Z * Z) (img : ndarray E) (grayscale : bool)
    (h w : Z) (rest : list Z) (pads : list (Z * Z)) :
  shape img = h :: w :: rest ->
  length rest = (if grayscale then 0 else 1)%nat ->
  h <= fst target_size ->
  w <= snd target_size ->
  pad_width target_size img grayscale = Ok pads ->
  exists padded,
    np_pad img pads = Ok padded
    /\ shape padded = fst target_size :: snd target_size :: rest.
Proof.
  intros Hs Hrest Hh Hw Hpads.
  rewrite (pad_width_image _ _ _ _ _ _ Hs) in Hpads. injection Hpads as <-.
  destruct (half_nonneg (fst target_size - h)) as [Ht Hb]; [lia |].
  destruct (half_nonneg (snd target_size - w)) as [Hl Hr]; [lia |].
  unfold np_pad. rewrite Hs.
  destruct grayscale; destruct rest as [| c [| c' rest]]; try discriminate; simpl.
  - repeat match goal with
           | |- context [?a <? 0] => replace (a <? 0) with false by (symmetry; apply Z.ltb_ge; lia)
           end.
    simpl. eexists. split; [reflexivity |]. simpl. f_equal; [lia |]. f_equal. lia.
  - repeat match goal with
           | |- context [?a <? 0] => replace (a <? 0) with false by (symmetry; apply Z.ltb_ge; lia)
           end.
    simpl. eexists. split; [reflexivity |]. simpl. f_equal; [lia |]. f_equal; [lia |].
    f_equal. lia.
Qed.

Lemma cv2_resize_gray (img : ndarray E) (h w dw dh : Z) :
  cv2_resize_depth env = true ->
  shape img = [h; w] ->
  0 < h -> 0 < w -> 0 < dw -> 0 < dh ->
  cv2_resize env img (dw, dh) = Ok (mk_ndarray [dh; dw] (resize_data env img dw dh)).
Proof.
  intros Hdepth Hs Hh Hw Hdw Hdh. unfold cv2_resize. rewrite Hs.
  apply Z.ltb_lt in Hh, Hw, Hdw, Hdh. rewrite Hh, Hw, Hdw, Hdh, Hdepth. reflexivity.
Qed.

Lemma cv2_resize_colour (img : ndarray E) (h w c dw dh : Z) :
  cv2_resize_depth env = true ->
  shape img = [h; w; c] ->
  0 < h -> 0 < w -> 2 <= c <= 512 -> 0 < dw -> 0 < dh ->
  cv2_resize env img (dw, dh) = Ok (mk_ndarray [dh; dw; c] (resize_data env img dw dh)).
Proof.
  intros Hdepth Hs Hh Hw Hc Hdw Hdh. unfold cv2_resize. rewrite Hs.
  apply Z.ltb_lt in Hh, Hw, Hdw, Hdh. rewrite Hh, Hw, Hdw, Hdh, Hdepth.
  replace (0 <? c) with true by (symmetry; apply Z.ltb_lt; lia).
  replace (c <=? 512) with true by (symmetry; apply Z.leb_le; lia).
  replace (c =? 1) with false by (symmetry; apply Z.eqb_neq; lia).
  reflexivity.
Qed.

Lemma scaled_dsize_image (target_size : Z * Z) (img : ndarray E) (h w : Z) (rest : list Z) :
  shape img = h :: w :: rest ->
  scaled_dsize target_size img = scaled_dsize target_size (mk_ndarray [h; w] (@nil E)).
Proof.
  intros Hs. unfold scaled_dsize, shape_at, py_index. rewrite Hs. reflexivity.
Qed.

(** Where OpenCV takes the array's dtype and the scaled size is at least one
    pixel and at most the target along both axes, the resize and the padding
    succeed and the tensor has exactly the target's height and width. *)
Lemma reshape_face_target_shape (img : ndarray E) (reg : region) (target_size : Z * Z)
    (grayscale : bool) (h w c dw dh : Z) :
  cv2_resize_depth env = true ->
  (grayscale = true -> cv2_cvtColor_depth env = true) ->
  shape img = [h; w; c] ->
  0 < h -> 0 < w ->
  (if grayscale then c = 3 \/ c = 4 else 2 <= c <= 512) ->
  scaled_dsize target_size img = Ok (dw, dh) ->
  0 < dw <= snd target_size ->
  0 < dh <= fst target_size ->
  exists out,
    reshape_face env img reg target_size grayscale = Ok (out, reg)
    /\ shape out = [1; fst target_size; snd target_size; if grayscale then 1 else c].
Proof.
  intros Hrdepth Hcdepth Hs Hh Hw Hc Hd Hdw Hdh. unfold reshape_face.
  destruct grayscale.
  - unfold cv2_cvtColor_BGR2GRAY. rewrite Hs, (Hcdepth eq_refl).
    replace (0 <? h) with true by (symmetry; apply Z.ltb_lt; lia).
    replace (0 <? w) with true by (symmetry; apply Z.ltb_lt; lia).
    replace ((c =? 3) || (c =? 4)) with true
      by (destruct Hc as [-> | ->]; reflexivity).
    simpl andb. cbv iota. unfold rbind at 1.
    set (gray := mk_ndarray [h; w] (cvtColor_data env img)).
    rewrite (scaled_dsize_image _ _ h w [c] Hs) in Hd.
    rewrite (scaled_dsize_image _ gray h w [] eq_refl).
    rewrite Hd. unfold rbind at 1.
    rewrite (cv2_resize_gray gray h w dw dh Hrdepth eq_refl) by lia.
    unfold rbind at 1.
    set (resized := mk_ndarray [dh; dw] (resize_data env gray dw dh)).
    rewrite (pad_width_image target_size resized true dh dw [] eq_refl).
    unfold rbind at 1.
    destruct (np_pad_to_target target_size resized true dh dw [] _ eq_refl eq_refl
                ltac:(lia) ltac:(lia) (pad_width_image target_size resized true dh dw [] eq_refl))
      as (padded & -> & Hp).
    unfold rbind at 1. rewrite Hp. simpl take.
    rewrite bool_decide_eq_false_2 by (intros Hne; apply Hne; reflexivity).
    unfold rbind at 1. unfold img_to_array. rewrite Hp. unfold rbind.
    eexists. split; reflexivity.
  - unfold rbind at 1. rewrite Hd. unfold rbind at 1.
    rewrite (cv2_resize_colour img h w c dw dh Hrdepth Hs) by lia.
    unfold rbind at 1.
    set (resized := mk_ndarray [dh; dw; c] (resize_data env img dw dh)).
    rewrite (pad_width_image target_size resized false dh dw [c] eq_refl).
    unfold rbind at 1.
    destruct (np_pad_to_target target_size resized false dh dw [c] _ eq_refl eq_refl
                ltac:(lia) ltac:(lia) (pad_width_image target_size resized false dh dw [c] eq_refl))
      as (padded & -> & Hp).
    unfold rbind at 1. rewrite Hp. simpl take.
    rewrite bool_decide_eq_false_2 by (intros Hne; apply Hne; reflexivity).
    unfold rbind at 1. unfold img_to_array. rewrite Hp. unfold rbind.
    eexists. split; [reflexivity |]. simpl. rewrite Hp. reflexivity.
Qed.

End ReshapeFacts.

(** The content sits between the zeros: a 2x2 image padded by (1, 2) rows and
    (1, 0) columns. *)
Example np_pad_places_content :
  np_pad (mk_ndarray [2; 2] [1%float; 2%float; 3%float; 4%float]) [(1, 2); (1, 0)]
  = Ok (mk_ndarray [5; 3]
          [0%float; 0%float; 0%float;
           0%float; 1%float; 2%float;
           0%float; 3%float; 4%float;
           0%float; 0%float; 0%float;
           0%float; 0%float; 0%float]).
Proof. reflexivity. Qed.

Section ReshapeClaims.
Context {E : Type} `{Dtype E} (env : Env E).

(** The widths handed to [np.pad] for the resized image: on each of the
    two spatial axes the side before the content gets the floor of half the
    missing size and the side after it gets the remainder, so the two sides
    differ by at most one pixel; the channel axis is not padded. *)
Theorem pad_width_even_split (target_size : Z * Z) (img : ndarray E) (grayscale : bool)
    (h w : Z) (rest : list Z) :
  shape img = h :: w :: rest ->
  exists pad_top pad_bottom pad_left pad_right others,
    pad_width target_size img grayscale
      = Ok ((pad_top, pad_bottom) :: (pad_left, pad_right) :: others)
    /\ 2 * pad_top <= fst target_size - h < 2 * pad_top + 2
    /\ pad_top + pad_bottom = fst target_size - h
    /\ 2 * pad_left <= snd target_size - w < 2 * pad_left + 2
    /\ pad_left + pad_right = snd target_size - w
    /\ Z.abs (pad_top - pad_bottom) <= 1
    /\ Z.abs (pad_left - pad_right) <= 1
    /\ Forall (fun p => p = (0, 0)) others.
Proof.
  intros Hs. rewrite (pad_width_image _ _ _ _ _ _ Hs).
  destruct (half_split (fst target_size - h)) as (Hf0 & Hs0 & Hd0).
  destruct (half_split (snd target_size - w)) as (Hf1 & Hs1 & Hd1).
  eexists _, _, _, _, _. split; [reflexivity |].
  repeat split; try lia.
  destruct grayscale; repeat constructor.
Qed.

(** C5, where the code fails. An image of 1 row and 300 columns and the
    default target 224x224: the scaled height is [int(0.7466...) = 0], so
    [cv2.resize] raises and no tensor of the target size is produced. *)
Theorem reshape_face_elongated_image (pixels : list E) (reg : region) :
  scaled_dsize (224, 224) (mk_ndarray [1; 300; 3] pixels) = Ok (224, 0)
  /\ reshape_face env (mk_ndarray [1; 300; 3] pixels) reg (224, 224) false
     = Raise Cv2Error.
Proof. split; reflexivity. Qed.

End ReshapeClaims.

Lemma pad_width_even_split_witness :
  exists pad_top pad_bottom pad_left pad_right others,
    pad_width (224, 224) (filled [73; 224; 3] 0%float) false
      = Ok ((pad_top, pad_bottom) :: (pad_left, pad_right) :: others)
    /\ 2 * pad_top <= 224 - 73 < 2 * pad_top + 2
    /\ pad_top + pad_bottom = 224 - 73
    /\ 2 * pad_left <= 224 - 224 < 2 * pad_left + 2
    /\ pad_left + pad_right = 224 - 224
    /\ Z.abs (pad_top - pad_bottom) <= 1
    /\ Z.abs (pad_left - pad_right) <= 1
    /\ Forall (fun p => p = (0, 0)) others.
Proof.
  exact (pad_width_even_split (224, 224) (filled [73; 224; 3] 0%float) false 73 224 [3] eq_refl).
Defined.

Lemma reshape_face_target_shape_witness :
  exists out,
    reshape_face (demo_env no_face) (filled [100; 300; 3] 0%float) [0; 0; 100; 300]
      (224, 224) false = Ok (out, [0; 0; 100; 300])
    /\ shape out = [1; 224; 224; 3].
Proof.
  apply (reshape_face_target_shape (demo_env no_face) (filled [100; 300; 3] 0%float)
           [0; 0; 100; 300] (224, 224) false 100 300 3 224 74);
    try reflexivity; try discriminate; simpl; lia.
Defined.

(** * Further properties of the module *)

(** ** load_image and detect_faces: errors and frame *)

Section LoaderMore.
Context {E : Type} (env : Env E).

Lemma is_data_uri_false (s : string) :
  (String.length s <= 11)%nat \/ substring 0 11 s <> "data:image/" ->
  is_data_uri s = false.
Proof.
  unfold is_data_uri. intros [Hlen | Hpre].
  - replace (11 <? Z.of_nat (String.length s)) with false; [reflexivity |].
    symmetry. apply Z.ltb_ge. lia.
  - apply String.eqb_neq in Hpre. rewrite Hpre. apply andb_false_r.
Qed.

Lemma alloc_heap (a : ndarray E) (st : state E) :
  heap st ⊆ heap (snd (alloc a st)).
Proof. simpl. apply insert_subseteq, not_elem_of_dom, is_fresh. Qed.

Lemma new_object_heap (o : option (ndarray E)) (st st' : state E) (r : result pyval) :
  new_object o st = (r, st') -> heap st ⊆ heap st'.
Proof.
  destruct o as [a |]; unfold new_object; run; intros [= _ <-]; [| reflexivity].
  apply (alloc_heap a st).
Qed.

(** Loading writes no array that exists: it can only add one. *)
Lemma load_image_heap (img : pyval) (st st' : state E) (r : result pyval) :
  load_image env img st = (r, st') -> heap st ⊆ heap st'.
Proof.
  unfold load_image, bind.
  destruct (base64_test img st) as [[b | e] st1] eqn:Hb;
    apply base64_test_trace in Hb; subst st1; [| intros [= _ <-]; reflexivity].
  destruct b.
  - destruct img as [| s | l]; try (intros [= _ <-]; reflexivity).
    unfold loadBase64Img, bind, lift.
    destruct (py_index (split_on comma s) 1) as [payload | e];
      [| intros [= _ <-]; reflexivity].
    unfold decode_payload, bind, lift.
    destruct (base64_b64decode env payload) as [buf | e]; [| intros [= _ <-]; reflexivity].
    destruct (cv2_imdecode env buf) as [o | e]; [| intros [= _ <-]; reflexivity].
    apply new_object_heap.
  - destruct img as [| s | l]; simpl; try (intros [= _ <-]; reflexivity).
    destruct (os_path_isfile env s); simpl; [| intros [= _ <-]; reflexivity].
    apply new_object_heap.
Qed.

(** A string that is not a data URI and names no file: [ValueError], and
    nothing is created. A string of 11 characters or fewer is never a data
    URI, whatever it starts with. *)
Theorem load_image_missing_file (s : string) (st : state E) :
  (String.length s <= 11)%nat \/ substring 0 11 s <> "data:image/" ->
  os_path_isfile env s = false ->
  load_image env (PStr s) st = (Raise (ValueError ["Confirm that "; s; " exists"]), st).
Proof.
  intros Huri Hfile. unfold load_image, base64_test; run.
  rewrite (is_data_uri_false s Huri), Hfile. reflexivity.
Qed.

Lemma load_image_undecodable (s : string) (st : state E) :
  (String.length s <= 11)%nat \/ substring 0 11 s <> "data:image/" ->
  os_path_isfile env s = true ->
  cv2_imread env s = None ->
  load_image env (PStr s) st = (Ok PNone, st).
Proof.
  intros Huri Hfile Hread. unfold load_image, base64_test; run.
  rewrite (is_data_uri_false s Huri), Hfile, Hread. reflexivity.
Qed.

End LoaderMore.

Section DetectorMore.
Context {E : Type} (env : Env E).

Lemma whole_image_region_state (l : loc) (st st' : state E) (r : result region) :
  whole_image_region l st = (r, st') -> st' = st.
Proof.
  unfold whole_image_region, bind, deref, lift, ret.
  destruct (heap st !! l) as [a |]; [| intros [= _ <-]; reflexivity].
  destruct (shape_at a 0); [| intros [= _ <-]; reflexivity].
  destruct (shape_at a 1); intros [= _ <-]; reflexivity.
Qed.

Lemma zero_faces_handling_state (l : loc) (enforce_detection : bool)
    (faces : list (loc * region)) (st st' : state E) (r : result (list (loc * region))) :
  zero_faces_handling l enforce_detection faces st = (r, st') -> st' = st.
Proof.
  unfold zero_faces_handling.
  destruct (length faces =? 0)%nat; [| intros [= _ <-]; reflexivity].
  destruct enforce_detection; simpl; [| intros [= _ <-]; reflexivity].
  unfold bind. destruct (whole_image_region l st) as [[reg | e] st1] eqn:Hr;
    apply whole_image_region_state in Hr; subst st1; intros [= _ <-]; reflexivity.
Qed.

Lemma check_faces_state (enforce_detection : bool) (faces : list (loc * region))
    (st st' : state E) (r : result unit) :
  check_faces enforce_detection faces st = (r, st') -> st' = st.
Proof.
  induction faces as [| [l reg] faces IH]; simpl.
  - intros [= _ <-]; reflexivity.
  - unfold bind, deref, lift.
    destruct (heap st !! l) as [a |]; [| intros [= _ <-]; reflexivity].
    destruct (zero_extent a) as [z | e]; [| intros [= _ <-]; reflexivity].
    destruct (z && enforce_detection); [intros [= _ <-]; reflexivity | exact IH].
Qed.

(** The loop lets every pair pass when enforcement is off, or when every
    crop has extent. *)
Lemma check_faces_pass (enforce_detection : bool) (ls : list (loc * region))
    (fs : list (ndarray E * region)) (st : state E) :
  Forall2 (fun lr cr => lr.2 = cr.2 /\ heap st !! lr.1 = Some cr.1) ls fs ->
  Forall (fun cr => is_image cr.1 = true) fs ->
  enforce_detection = false \/ Forall (fun cr => zero_height_or_width cr.1 = false) fs ->
  check_faces enforce_detection ls st = (Ok tt, st).
Proof.
  induction 1 as [| [l r] [c r'] ls fs [_ Hl] Hrest IH]; intros Himg Hok.
  - reflexivity.
  - simpl in Hl. apply Forall_cons in Himg as [Hc Himg].
    simpl. unfold bind at 1. unfold deref. rewrite Hl.
    unfold bind at 1. unfold lift. rewrite (zero_extent_image c Hc).
    assert (Hz : zero_height_or_width c && enforce_detection = false).
    { destruct Hok as [-> | Hall]; [apply andb_false_r |].
      apply Forall_cons in Hall as [Hz _]. simpl in Hz. rewrite Hz. reflexivity. }
    rewrite Hz. apply IH; [exact Himg |].
    destruct Hok as [-> | Hall]; [left; reflexivity | right].
    apply Forall_cons in Hall as [_ Hall]. exact Hall.
Qed.

Lemma call_detect_faces_heap (face_detector : nat) (detector_backend : string)
    (l : loc) (align : bool) (st st' : state E) (r : result (list (loc * region))) :
  call_detect_faces env face_detector detector_backend l align st = (r, st') ->
  heap st ⊆ heap st'.
Proof.
  unfold call_detect_faces. unfold bind at 1. unfold log at 1.
  unfold bind at 1. unfold deref at 1. cbn [heap].
  destruct (heap st !! l) as [a |]; [| intros [= _ <-]; reflexivity].
  unfold bind at 1. unfold lift at 1.
  destruct (detector_detect_faces env face_detector detector_backend a align) as [fs | e];
    [| intros [= _ <-]; reflexivity].
  destruct (alloc_faces_spec fs (mk_state (heap st) (trace st ++ [EvDetect detector_backend l align])))
    as (ls & st4 & Hrun & _ & Hsub & _).
  rewrite Hrun. intros [= _ <-]. exact Hsub.
Qed.

(** [detect_faces] writes no array that existed before the call. *)
Lemma detect_faces_heap (img : pyval) (enforce_detection : bool) (detector_backend : string)
    (align : bool) (st st' : state E) (r : result (list (loc * region))) :
  detect_faces env img enforce_detection detector_backend align st = (r, st') ->
  heap st ⊆ heap st'.
Proof.
  unfold detect_faces. unfold bind at 1.
  destruct (load_image env img st) as [[v | e] st1] eqn:Hload;
    apply load_image_heap in Hload; [| intros [= _ <-]; exact Hload].
  destruct v as [| s | l]; try (intros [= _ <-]; exact Hload).
  unfold bind at 1.
  destruct (whole_image_region l st1) as [[reg | e] st1'] eqn:Hreg;
    apply whole_image_region_state in Hreg; subst st1'; [| intros [= _ <-]; exact Hload].
  destruct (String.eqb detector_backend "skip"); [intros [= _ <-]; exact Hload |].
  unfold call_build_model. unfold bind at 1. unfold bind at 1. unfold log at 1.
  unfold lift at 1.
  destruct (build_model env detector_backend) as [fd | e]; [| intros [= _ <-]; exact Hload].
  set (st2 := mk_state (heap st1) (trace st1 ++ [EvBuild detector_backend])).
  unfold bind at 1. unfold try_except.
  destruct (call_detect_faces env fd detector_backend l align st2) as [[ls | e] st3] eqn:Hdet;
    apply call_detect_faces_heap in Hdet.
  - unfold bind at 1.
    destruct (zero_faces_handling l enforce_detection ls st3) as [[ls' | e] st3'] eqn:Hz;
      apply zero_faces_handling_state in Hz; subst st3';
      [| intros [= _ <-]; etrans; [exact Hload | exact Hdet]].
    unfold bind.
    destruct (check_faces enforce_detection ls' st3) as [[[] | e] st3'] eqn:Hc;
      apply check_faces_state in Hc; subst st3';
      intros [= _ <-]; (etrans; [exact Hload | exact Hdet]).
  - unfold ret at 1. unfold bind at 1.
    destruct (zero_faces_handling l enforce_detection [] st3) as [[ls' | e'] st3'] eqn:Hz;
      apply zero_faces_handling_state in Hz; subst st3';
      [| intros [= _ <-]; etrans; [exact Hload | exact Hdet]].
    unfold bind.
    destruct (check_faces enforce_detection ls' st3) as [[[] | e'] st3'] eqn:Hc;
      apply check_faces_state in Hc; subst st3';
      intros [= _ <-]; (etrans; [exact Hload | exact Hdet]).
Qed.

End DetectorMore.

Section DetectorFurther.
Context {E : Type} (env : Env E).

(** When the backend reports faces and the final loop lets them pass, the
    result lists them in the detector's order, each crop an object of its
    own. *)
Lemma detect_faces_found_run (img : pyval) (enforce_detection : bool)
    (detector_backend : string) (align : bool) (st st1 : state E) (l : loc)
    (a : ndarray E) (h w : Z) (rest : list Z) (face_detector : nat)
    (fs : list (ndarray E * region)) :
  load_image env img st = (Ok (PArr l), st1) ->
  heap st1 !! l = Some a ->
  shape a = h :: w :: rest ->
  String.eqb detector_backend "skip" = false ->
  build_model env detector_backend = Ok face_detector ->
  faces_found env face_detector detector_backend a align = fs ->
  fs <> [] ->
  Forall (fun cr => is_image cr.1 = true) fs ->
  enforce_detection = false \/ Forall (fun cr => zero_height_or_width cr.1 = false) fs ->
  exists ls st',
    detect_faces env img enforce_detection detector_backend align st = (Ok ls, st')
    /\ Forall2 (fun lr cr => lr.2 = cr.2 /\ heap st' !! lr.1 = Some cr.1) ls fs
    /\ heap st1 ⊆ heap st'
    /\ trace st' = trace st1 ++ [EvBuild detector_backend; EvDetect detector_backend l align].
Proof.
  intros Hload Hl Hs Hskip Hbuild Hfound Hne Himg Hok.
  rewrite (detect_faces_after_detection env _ _ _ _ _ _ _ _ _ _ _ _ Hload Hl Hs Hskip Hbuild).
  rewrite Hfound.
  set (st3 := mk_state (heap st1) _).
  destruct (alloc_faces_spec fs st3) as (ls & st4 & Hrun & Htr & Hsub & Hall).
  exists ls, st4. unfold bind at 1. rewrite Hrun.
  assert (Hls : ls <> []).
  { apply Forall2_length in Hall. destruct ls, fs; simpl in *; congruence. }
  unfold bind at 1. rewrite (zero_faces_handling_found _ _ _ _ Hls).
  unfold bind. rewrite (check_faces_pass enforce_detection ls fs st4 Hall Himg Hok).
  repeat split; [exact Hall | exact Hsub |].
  rewrite Htr. subst st3. simpl. rewrite <- app_assoc. reflexivity.
Qed.

(** A file that exists but holds no image OpenCV can read: [cv2.imread] gives
    [None], and [detect_faces] fails on [img.shape] with [AttributeError],
    whatever the backend, "skip" included. *)
Theorem detect_faces_undecodable_file (s : string) (enforce_detection : bool)
    (detector_backend : string) (align : bool) (st : state E) :
  (String.length s <= 11)%nat \/ substring 0 11 s <> "data:image/" ->
  os_path_isfile env s = true ->
  cv2_imread env s = None ->
  detect_faces env (PStr s) enforce_detection detector_backend align st
  = (Raise AttributeError, st).
Proof.
  intros Huri Hfile Hread. unfold detect_faces, bind.
  rewrite (load_image_undecodable env s st Huri Hfile Hread). reflexivity.
Qed.

(** A backend that cannot be built: the exception of [build_model] leaves
    [detect_faces] as it is, no array is created and the detector is never
    asked. *)
Theorem detect_faces_build_failure (img : pyval) (enforce_detection : bool)
    (detector_backend : string) (align : bool) (st st1 : state E) (l : loc)
    (a : ndarray E) (h w : Z) (rest : list Z) (e : exn) :
  load_image env img st = (Ok (PArr l), st1) ->
  heap st1 !! l = Some a ->
  shape a = h :: w :: rest ->
  String.eqb detector_backend "skip" = false ->
  build_model env detector_backend = Raise e ->
  detect_faces env img enforce_detection detector_backend align st
  = (Raise e, mk_state (heap st1) (trace st1 ++ [EvBuild detector_backend])).
Proof.
  intros Hload Hl Hs Hskip Hbuild.
  unfold detect_faces. unfold bind at 1. rewrite Hload.
  unfold bind at 1. rewrite (whole_image_region_image _ _ _ _ _ _ Hl Hs).
  rewrite Hskip. unfold call_build_model, bind, log, lift. rewrite Hbuild. reflexivity.
Qed.

(** With enforcement off, or when every crop has extent, the faces the
    backend found come back in its order, with its regions, as many as it
    found; the image itself is still in place. *)
Theorem detect_faces_returns_found_faces (img : pyval) (enforce_detection : bool)
    (detector_backend : string) (align : bool) (st st1 : state E) (l : loc)
    (a : ndarray E) (h w : Z) (rest : list Z) (face_detector : nat)
    (fs : list (ndarray E * region)) :
  load_image env img st = (Ok (PArr l), st1) ->
  heap st1 !! l = Some a ->
  shape a = h :: w :: rest ->
  String.eqb detector_backend "skip" = false ->
  build_model env detector_backend = Ok face_detector ->
  faces_found env face_detector detector_backend a align = fs ->
  fs <> [] ->
  Forall (fun cr => is_image cr.1 = true) fs ->
  enforce_detection = false \/ Forall (fun cr => zero_height_or_width cr.1 = false) fs ->
  exists ls st',
    detect_faces env img enforce_detection detector_backend align st = (Ok ls, st')
    /\ map snd ls = map snd fs
    /\ Forall2 (fun lr cr => heap st' !! lr.1 = Some cr.1) ls fs
    /\ heap st' !! l = Some a.
Proof.
  intros Hload Hl Hs Hskip Hbuild Hfound Hne Himg Hok.
  destruct (detect_faces_found_run img enforce_detection detector_backend align st st1 l a
              h w rest face_detector fs Hload Hl Hs Hskip Hbuild Hfound Hne Himg Hok)
    as (ls & st' & Hrun & Hall & Hsub & _).
  exists ls, st'. split; [exact Hrun |]. split; [| split].
  - clear -Hall. induction Hall as [| [l1 r1] [c1 r1'] ls fs [Hr _] _ IH]; [reflexivity |].
    simpl in *. rewrite Hr, IH. reflexivity.
  - eapply Forall2_impl; [exact Hall |]. intros lr cr [_ Hlr]. exact Hlr.
  - eapply lookup_weaken; [exact Hl | exact Hsub].
Qed.

(** Whatever [detect_faces] does, it writes no array that existed before the
    call: every object is found afterwards as it was. *)
Theorem detect_faces_keeps_arrays (img : pyval) (enforce_detection : bool)
    (detector_backend : string) (align : bool) (st st' : state E)
    (r : result (list (loc * region))) (l : loc) (a : ndarray E) :
  detect_faces env img enforce_detection detector_backend align st = (r, st') ->
  heap st !! l = Some a ->
  heap st' !! l = Some a.
Proof.
  intros Hrun Hl. eapply lookup_weaken; [exact Hl |].
  exact (detect_faces_heap env _ _ _ _ _ _ _ Hrun).
Qed.

End DetectorFurther.

Lemma load_image_missing_file_witness :
  load_image (demo_env no_face) (PStr "data:image/") empty_state
  = (Raise (ValueError ["Confirm that "; "data:image/"; " exists"]), empty_state).
Proof.
  apply (load_image_missing_file (demo_env no_face) "data:image/" empty_state).
  - left. simpl. lia.
  - reflexivity.
Defined.

Lemma detect_faces_undecodable_file_witness :
  detect_faces (file_env "notes.txt" None) (PStr "notes.txt") false "skip" true empty_state
  = (Raise AttributeError, empty_state).
Proof.
  apply (detect_faces_undecodable_file (file_env "notes.txt" None) "notes.txt" false "skip" true
           empty_state).
  - left. simpl. lia.
  - reflexivity.
  - reflexivity.
Defined.

Lemma detect_faces_build_failure_witness :
  detect_faces (demo_env no_face) (PArr 0%nat) true "dlib" true
    (one_array (filled [2; 2; 3] 0%float))
  = (Raise (ValueError ["invalid detector_backend passed - dlib"]),
     mk_state {[ 0%nat := filled [2; 2; 3] 0%float ]} [EvBuild "dlib"]).
Proof.
  apply (detect_faces_build_failure (demo_env no_face) (PArr 0%nat) true "dlib" true
           (one_array (filled [2; 2; 3] 0%float)) (one_array (filled [2; 2; 3] 0%float))
           0%nat (filled [2; 2; 3] 0%float) 2 2 [3]); reflexivity.
Defined.

Lemma detect_faces_returns_found_faces_witness :
  exists ls st',
    detect_faces (demo_env one_flat_face) (PArr 0%nat) false "opencv" true
      (one_array (filled [5; 5; 3] 0%float)) = (Ok ls, st')
    /\ map snd ls = [[1; 1; 3; 3]; [1; 2; 0; 4]]
    /\ Forall2 (fun lr cr => heap st' !! lr.1 = Some cr.1) ls
         [(filled [3; 3; 3] 0%float, [1; 1; 3; 3]); (filled [4; 0; 3] 0%float, [1; 2; 0; 4])]
    /\ heap st' !! 0%nat = Some (filled [5; 5; 3] 0%float).
Proof.
  apply (detect_faces_returns_found_faces (demo_env one_flat_face) (PArr 0%nat) false "opencv"
           true (one_array (filled [5; 5; 3] 0%float)) (one_array (filled [5; 5; 3] 0%float))
           0%nat (filled [5; 5; 3] 0%float) 5 5 [3] 0%nat
           [(filled [3; 3; 3] 0%float, [1; 1; 3; 3]); (filled [4; 0; 3] 0%float, [1; 2; 0; 4])]).
  - reflexivity.
  - reflexivity.
  - reflexivity.
  - reflexivity.
  - reflexivity.
  - reflexivity.
  - discriminate.
  - repeat constructor.
  - left. reflexivity.
Defined.

Lemma detect_faces_keeps_arrays_witness :
  heap (snd (detect_faces (demo_env two_faces) (PArr 0%nat) true "opencv" true
               (one_array (filled [5; 5; 3] 0%float)))) !! 0%nat
  = Some (filled [5; 5; 3] 0%float).
Proof.
  apply (detect_faces_keeps_arrays (demo_env two_faces) (PArr 0%nat) true "opencv" true
           (one_array (filled [5; 5; 3] 0%float)) _ _ 0%nat (filled [5; 5; 3] 0%float)
           (surjective_pairing _)).
  reflexivity.
Defined.

(** ** normalize_input: layout, frame and the error inside the VGG schemes *)

Section NormalizerMore.
Context {E : Type} `{Dtype E}.

Lemma same_layout_refl (a : ndarray E) : same_layout a a.
Proof. split; reflexivity. Qed.

Lemma same_layout_map (f : E -> E) (a b : ndarray E) :
  same_layout a b -> same_layout a (map_data f b).
Proof.
  intros [Hs Hd]. split; [exact Hs |]. simpl. rewrite length_map. exact Hd.
Qed.

Lemma inplace_step (f : E -> E) (l : loc) (st : state E) (b : ndarray E) :
  inplace f l (overwritten st l b) = (Ok tt, overwritten st l (map_data f b)).
Proof.
  rewrite (inplace_run f l b) by apply overwritten_lookup.
  rewrite overwritten_twice. reflexivity.
Qed.

Lemma inplace_channel_step (f : E -> E) (k : Z) (l : loc) (st : state E) (b : ndarray E) :
  (exists d', inplace_channel f k l (overwritten st l b)
              = (Ok tt, overwritten st l (mk_ndarray (shape b) d'))
              /\ length d' = length (data b))
  \/ inplace_channel f k l (overwritten st l b) = (Raise IndexError, overwritten st l b).
Proof.
  unfold inplace_channel, bind, deref. rewrite overwritten_lookup.
  destruct (last (shape b)) as [c |]; [| right; reflexivity].
  destruct (k <? c); [| right; reflexivity].
  left. eexists. unfold store. simpl. rewrite insert_insert_eq.
  split; [reflexivity |]. unfold update_channel. apply length_imap.
Qed.

(** What a call that only rewrites the object behind [l] leaves behind. *)
Lemma overwritten_effect (st : state E) (l : loc) (a b : ndarray E) :
  heap st !! l = Some a ->
  same_layout a b ->
  (exists b', heap (overwritten st l b) !! l = Some b' /\ same_layout a b')
  /\ (forall l2 b2, l2 <> l -> heap st !! l2 = Some b2 ->
        heap (overwritten st l b) !! l2 = Some b2).
Proof.
  intros Hl Hb. split.
  - exists b. split; [apply overwritten_lookup | exact Hb].
  - intros l2 b2 Hne Hl2. simpl. rewrite lookup_insert_ne by congruence. exact Hl2.
Qed.

Lemma update_channel_single (f : E -> E) (d : list E) :
  update_channel f 0 1 d = map f d.
Proof.
  unfold update_channel. etrans; [| exact (imap_const f d)].
  apply imap_ext. intros i x _. rewrite Z.mod_1_r. reflexivity.
Qed.

Lemma normalize_input_steps (st : state E) (l : loc) (a : ndarray E) (s : string) :
  heap st !! l = Some a ->
  String.eqb s "base" = false ->
  normalize_input l s st
  = (if String.eqb s "raw" then ret l
     else if String.eqb s "Facenet" then
       let* a := deref l in
       let mean := np_mean (data a) in
       let std := np_std (data a) in
       let* t := alloc (map_data (fun x => el_sub x mean) a) in
       let* ta := deref t in
       alloc (map_data (fun x => el_div x std) ta)
     else if String.eqb s "Facenet2018" then
       inplace (fun x => el_div x (lit (1275 # 10))) l ;;
       inplace (fun x => el_sub x (lit (1 # 1))) l ;;
       ret l
     else if String.eqb s "VGGFace" then
       inplace_channel (fun x => el_sub x (lit (935940 # 10000))) 0 l ;;
       inplace_channel (fun x => el_sub x (lit (1047624 # 10000))) 1 l ;;
       inplace_channel (fun x => el_sub x (lit (1291863 # 10000))) 2 l ;;
       ret l
     else if String.eqb s "VGGFace2" then
       inplace_channel (fun x => el_sub x (lit (914953 # 10000))) 0 l ;;
       inplace_channel (fun x => el_sub x (lit (1038827 # 10000))) 1 l ;;
       inplace_channel (fun x => el_sub x (lit (1310912 # 10000))) 2 l ;;
       ret l
     else if String.eqb s "ArcFace" then
       inplace (fun x => el_sub x (lit (1275 # 10))) l ;;
       inplace (fun x => el_div x (lit (128 # 1))) l ;;
       ret l
     else ret l) (overwritten st l (map_data times_255 a)).
Proof.
  intros Hl Hb. unfold normalize_input. rewrite Hb.
  unfold bind at 1. rewrite (inplace_run times_255 l a st Hl). reflexivity.
Qed.

End NormalizerMore.

Section NormalizerFurther.
Context {E : Type} `{Dtype E}.

Lemma inplace_channel_out_of_range (f : E -> E) (k c : Z) (l : loc) (b : ndarray E)
    (st : state E) :
  heap st !! l = Some b ->
  last (shape b) = Some c ->
  c <= k ->
  inplace_channel f k l st = (Raise IndexError, st).
Proof.
  intros Hl Hc Hk. unfold inplace_channel, bind, deref. rewrite Hl, Hc.
  replace (k <? c) with false by (symmetry; apply Z.ltb_ge; exact Hk). reflexivity.
Qed.

Lemma same_layout_data (a b : ndarray E) (d' : list E) :
  same_layout a b ->
  length d' = length (data b) ->
  same_layout a (mk_ndarray (shape b) d').
Proof. intros [Hs Hd] Hd'. split; simpl; congruence. Qed.

Lemma facenet_effect (st : state E) (l : loc) (a b : ndarray E) :
  heap st !! l = Some a ->
  same_layout a b ->
  exists l' st',
    (let* a := deref l in
     let mean := np_mean (data a) in
     let std := np_std (data a) in
     let* t := alloc (map_data (fun x => el_sub x mean) a) in
     let* ta := deref t in
     alloc (map_data (fun x => el_div x std) ta)) (overwritten st l b) = (Ok l', st')
    /\ l' <> l
    /\ (exists b', heap st' !! l' = Some b' /\ same_layout a b')
    /\ heap st' !! l = Some b
    /\ (forall l2 b2, l2 <> l -> heap st !! l2 = Some b2 -> heap st' !! l2 = Some b2).
Proof.
  intros Hl Hb.
  set (st1 := overwritten st l b).
  assert (Hl1 : heap st1 !! l = Some b) by apply overwritten_lookup.
  unfold bind at 1. unfold deref at 1. rewrite Hl1.
  set (tmp := map_data (fun x => el_sub x (np_mean (data b))) b).
  set (t := fresh (dom (heap st1))).
  assert (Ht : t ∉ dom (heap st1)) by apply is_fresh.
  unfold bind, alloc, deref. simpl. fold t. rewrite lookup_insert_eq. simpl.
  set (h2 := <[t := tmp]> (heap st1)).
  set (l' := fresh (dom h2)).
  assert (Hl' : l' ∉ dom h2) by apply is_fresh.
  assert (Hdom1 : forall l2 b2, heap st1 !! l2 = Some b2 -> l2 <> t).
  { intros l2 b2 H2 ->. apply Ht. apply elem_of_dom. eauto. }
  assert (Hdom2 : forall l2 b2, h2 !! l2 = Some b2 -> l2 <> l').
  { intros l2 b2 H2 ->. apply Hl'. apply elem_of_dom. eauto. }
  assert (Hh2l : h2 !! l = Some b).
  { unfold h2. rewrite lookup_insert_ne; [exact Hl1 |]. intros Heq.
    exact (Hdom1 l b Hl1 (eq_sym Heq)). }
  exists l', (mk_state (<[l' := map_data (fun x => el_div x (np_std (data b))) tmp]> h2) (trace st)).
  split; [reflexivity |]. split; [| split; [| split]].
  - intros Heq. exact (Hdom2 l b Hh2l (eq_sym Heq)).
  - eexists. split; [apply lookup_insert_eq |].
    apply same_layout_map, same_layout_map. exact Hb.
  - simpl. rewrite lookup_insert_ne; [exact Hh2l |].
    intros Heq. exact (Hdom2 l b Hh2l (eq_sym Heq)).
  - intros l2 b2 Hne Hl2. simpl.
    assert (H1 : heap st1 !! l2 = Some b2).
    { unfold st1. simpl. rewrite lookup_insert_ne by congruence. exact Hl2. }
    assert (H2 : h2 !! l2 = Some b2).
    { unfold h2. rewrite lookup_insert_ne; [exact H1 |]. intros Heq.
      exact (Hdom1 l2 b2 H1 (eq_sym Heq)). }
    rewrite lookup_insert_ne; [exact H2 |]. intros Heq.
    exact (Hdom2 l2 b2 H2 (eq_sym Heq)).
Qed.

(** Whatever the scheme, the array that comes back has the shape and the
    number of elements of the input, and no other array is written. *)
Theorem normalize_input_keeps_layout (st st' : state E) (l l' : loc) (a : ndarray E)
    (s : string) :
  heap st !! l = Some a ->
  normalize_input l s st = (Ok l', st') ->
  (exists b, heap st' !! l' = Some b /\ same_layout a b)
  /\ (forall l2 b2, l2 <> l -> heap st !! l2 = Some b2 -> heap st' !! l2 = Some b2).
Proof.
  intros Hl.
  destruct (String.eqb s "base") eqn:Hbase.
  { unfold normalize_input. rewrite Hbase. intros [= <- <-]. split.
    - exists a. split; [exact Hl | apply same_layout_refl].
    - intros l2 b2 _ Hl2. exact Hl2. }
  rewrite (normalize_input_steps st l a s Hl Hbase).
  set (b1 := map_data times_255 a).
  assert (Hb1 : same_layout a b1) by (apply same_layout_map, same_layout_refl).
  destruct (String.eqb s "raw").
  { intros [= <- <-]. exact (overwritten_effect st l a b1 Hl Hb1). }
  destruct (String.eqb s "Facenet").
  { destruct (facenet_effect st l a b1 Hl Hb1) as (l0 & st0 & Hrun & _ & Hnew & _ & Hframe).
    rewrite Hrun. intros [= <- <-]. split; [exact Hnew | exact Hframe]. }
  destruct (String.eqb s "Facenet2018").
  { unfold bind at 1. rewrite inplace_step. unfold bind at 1. rewrite inplace_step.
    intros [= <- <-]. apply (overwritten_effect st l a _ Hl).
    apply same_layout_map, same_layout_map. exact Hb1. }
  destruct (String.eqb s "VGGFace").
  { unfold bind at 1.
    destruct (inplace_channel_step (fun x => el_sub x (lit (935940 # 10000))) 0 l st b1)
      as [(d1 & -> & Hd1) | ->]; [| discriminate].
    set (b2 := mk_ndarray (shape b1) d1).
    assert (Hb2 : same_layout a b2) by exact (same_layout_data a b1 d1 Hb1 Hd1).
    unfold bind at 1.
    destruct (inplace_channel_step (fun x => el_sub x (lit (1047624 # 10000))) 1 l st b2)
      as [(d2 & -> & Hd2) | ->]; [| discriminate].
    set (b3 := mk_ndarray (shape b2) d2).
    assert (Hb3 : same_layout a b3) by exact (same_layout_data a b2 d2 Hb2 Hd2).
    unfold bind at 1.
    destruct (inplace_channel_step (fun x => el_sub x (lit (1291863 # 10000))) 2 l st b3)
      as [(d3 & -> & Hd3) | ->]; [| discriminate].
    intros [= <- <-]. apply (overwritten_effect st l a _ Hl).
    exact (same_layout_data a b3 d3 Hb3 Hd3). }
  destruct (String.eqb s "VGGFace2").
  { unfold bind at 1.
    destruct (inplace_channel_step (fun x => el_sub x (lit (914953 # 10000))) 0 l st b1)
      as [(d1 & -> & Hd1) | ->]; [| discriminate].
    set (b2 := mk_ndarray (shape b1) d1).
    assert (Hb2 : same_layout a b2) by exact (same_layout_data a b1 d1 Hb1 Hd1).
    unfold bind at 1.
    destruct (inplace_channel_step (fun x => el_sub x (lit (1038827 # 10000))) 1 l st b2)
      as [(d2 & -> & Hd2) | ->]; [| discriminate].
    set (b3 := mk_ndarray (shape b2) d2).
    assert (Hb3 : same_layout a b3) by exact (same_layout_data a b2 d2 Hb2 Hd2).
    unfold bind at 1.
    destruct (inplace_channel_step (fun x => el_sub x (lit (1310912 # 10000))) 2 l st b3)
      as [(d3 & -> & Hd3) | ->]; [| discriminate].
    intros [= <- <-]. apply (overwritten_effect st l a _ Hl).
    exact (same_layout_data a b3 d3 Hb3 Hd3). }
  destruct (String.eqb s "ArcFace").
  { unfold bind at 1. rewrite inplace_step. unfold bind at 1. rewrite inplace_step.
    intros [= <- <-]. apply (overwritten_effect st l a _ Hl).
    apply same_layout_map, same_layout_map. exact Hb1. }
  intros [= <- <-]. exact (overwritten_effect st l a b1 Hl Hb1).
Qed.

(** "VGGFace" and "VGGFace2" on a tensor with a single channel: the call
    raises [IndexError] at the second channel, after the caller's array has
    been scaled by 255 and shifted by the first channel's mean. *)
Theorem normalize_input_vgg_single_channel (st : state E) (l : loc) (a : ndarray E) :
  heap st !! l = Some a ->
  last (shape a) = Some 1 ->
  normalize_input l "VGGFace" st
  = (Raise IndexError,
     overwritten st l (map_data (fun x => el_sub (times_255 x) (lit (935940 # 10000))) a))
  /\ normalize_input l "VGGFace2" st
     = (Raise IndexError,
        overwritten st l (map_data (fun x => el_sub (times_255 x) (lit (914953 # 10000))) a)).
Proof.
  intros Hl Hc. split.
  - unfold normalize_input. simpl. unfold bind at 1.
    rewrite (inplace_run times_255 l a st Hl). unfold bind at 1.
    rewrite (inplace_channel_run _ 0 1 l (map_data times_255 a))
      by (apply overwritten_lookup || exact Hc || lia).
    rewrite overwritten_twice. unfold bind at 1.
    erewrite (inplace_channel_out_of_range _ 1 1 l);
      [| apply overwritten_lookup | exact Hc | lia].
    simpl. rewrite update_channel_single, map_map. reflexivity.
  - unfold normalize_input. simpl. unfold bind at 1.
    rewrite (inplace_run times_255 l a st Hl). unfold bind at 1.
    rewrite (inplace_channel_run _ 0 1 l (map_data times_255 a))
      by (apply overwritten_lookup || exact Hc || lia).
    rewrite overwritten_twice. unfold bind at 1.
    erewrite (inplace_channel_out_of_range _ 1 1 l);
      [| apply overwritten_lookup | exact Hc | lia].
    simpl. rewrite update_channel_single, map_map. reflexivity.
Qed.

End NormalizerFurther.

Lemma normalize_input_keeps_layout_witness :
  exists b,
    heap (snd (normalize_input 0%nat "Facenet"
                 (one_array (mk_ndarray [1; 1; 1; 3] [0.5%float; 0.25%float; 1%float]))))
      !! 2%nat = Some b
    /\ same_layout (mk_ndarray [1; 1; 1; 3] [0.5%float; 0.25%float; 1%float]) b.
Proof.
  exact (proj1 (normalize_input_keeps_layout
                  (one_array (mk_ndarray [1; 1; 1; 3] [0.5%float; 0.25%float; 1%float]))
                  (snd (normalize_input 0%nat "Facenet"
                          (one_array (mk_ndarray [1; 1; 1; 3] [0.5%float; 0.25%float; 1%float]))))
                  0%nat 2%nat (mk_ndarray [1; 1; 1; 3] [0.5%float; 0.25%float; 1%float])
                  "Facenet" eq_refl eq_refl)).
Defined.

Lemma normalize_input_vgg_single_channel_witness :
  normalize_input 0%nat "VGGFace" (one_array (mk_ndarray [1; 1; 2; 1] [1%float; 0.5%float]))
  = (Raise IndexError,
     one_array (mk_ndarray [1; 1; 2; 1]
                  [PrimFloat.sub 255%float (float64_lit (935940 # 10000));
                   PrimFloat.sub 127.5%float (float64_lit (935940 # 10000))])).
Proof.
  exact (proj1 (normalize_input_vgg_single_channel
                  (one_array (mk_ndarray [1; 1; 2; 1] [1%float; 0.5%float]))
                  0%nat (mk_ndarray [1; 1; 2; 1] [1%float; 0.5%float]) eq_refl eq_refl)).
Defined.

(** ** reshape_face: what it returns when it returns, and when it cannot *)

Section ReshapeMore.
Context {E : Type} `{Dtype E} (env : Env E).

Lemma rbind_ok {A B : Type} (m : result A) (k : A -> result B) (y : B) :
  rbind m k = Ok y -> exists x, m = Ok x /\ k x = Ok y.
Proof. destruct m as [x | e]; simpl; [eauto | discriminate]. Qed.

Lemma cv2_resize_shape (img resized : ndarray E) (dw dh : Z) :
  cv2_resize env img (dw, dh) = Ok resized ->
  (length (shape img) = 2%nat /\ shape resized = [dh; dw])
  \/ (exists h w c, shape img = [h; w; c]
        /\ shape resized = if c =? 1 then [dh; dw] else [dh; dw; c]).
Proof.
  unfold cv2_resize.
  destruct (shape img) as [| h [| w [| c [| x rest]]]]; try discriminate.
  - destruct ((0 <? h) && (0 <? w) && (0 <? dw) && (0 <? dh) && cv2_resize_depth env);
      [| discriminate].
    intros [= <-]. left. split; reflexivity.
  - destruct ((0 <? h) && (0 <? w) && (0 <? c) && (c <=? 512) && (0 <? dw) && (0 <? dh)
              && cv2_resize_depth env);
      [| discriminate].
    intros [= <-]. right. exists h, w, c. split; reflexivity.
Qed.

Lemma np_pad_shape (img padded : ndarray E) (pads : list (Z * Z)) :
  np_pad img pads = Ok padded ->
  length pads = length (shape img)
  /\ shape padded = padded_shape (shape img) pads.
Proof.
  unfold np_pad.
  destruct (existsb _ pads); [discriminate |].
  destruct (length pads =? length (shape img))%nat eqn:Hlen; [| discriminate].
  intros [= <-]. split; [apply Nat.eqb_eq; exact Hlen | reflexivity].
Qed.

(** The steps a returning call went through. *)
Lemma reshape_face_inv (img : ndarray E) (reg : region) (target_size : Z * Z)
    (grayscale : bool) (out : ndarray E) (r : region) :
  reshape_face env img reg target_size grayscale = Ok (out, r) ->
  exists img1 dw dh resized pads padded img2 pixels,
    (if grayscale then cv2_cvtColor_BGR2GRAY env img else Ok img) = Ok img1
    /\ scaled_dsize target_size img1 = Ok (dw, dh)
    /\ cv2_resize env img1 (dw, dh) = Ok resized
    /\ pad_width target_size resized grayscale = Ok pads
    /\ np_pad resized pads = Ok padded
    /\ (if bool_decide (take 2 (shape padded) <> [fst target_size; snd target_size])
        then cv2_resize env padded target_size else Ok padded) = Ok img2
    /\ img_to_array img2 = Ok pixels
    /\ out = map_data (fun x => el_div x (lit (255 # 1))) (expand_dims0 pixels)
    /\ r = reg.
Proof.
  unfold reshape_face. intros Hrun.
  apply rbind_ok in Hrun as (img1 & H1 & Hrun).
  apply rbind_ok in Hrun as ([dw dh] & H2 & Hrun).
  apply rbind_ok in Hrun as (resized & H3 & Hrun).
  apply rbind_ok in Hrun as (pads & H4 & Hrun).
  apply rbind_ok in Hrun as (padded & H5 & Hrun).
  apply rbind_ok in Hrun as (img2 & H6 & Hrun).
  apply rbind_ok in Hrun as (pixels & H7 & Hrun).
  injection Hrun as <- <-.
  exists img1, dw, dh, resized, pads, padded, img2, pixels. repeat split; assumption.
Qed.

(** After a padding that succeeded the image has the target's height and
    width: the final [cv2.resize(img, target_size)] of lines 218-219 is never
    reached. *)
Lemma np_pad_reaches_target (target_size : Z * Z) (resized padded : ndarray E)
    (grayscale : bool) (h w : Z) (rest : list Z) (pads : list (Z * Z)) :
  shape resized = h :: w :: rest ->
  pad_width target_size resized grayscale = Ok pads ->
  np_pad resized pads = Ok padded ->
  shape padded = fst target_size :: snd target_size :: rest
  /\ length rest = (if grayscale then 0 else 1)%nat.
Proof.
  intros Hs Hpads Hpad.
  rewrite (pad_width_image _ _ _ _ _ _ Hs) in Hpads. injection Hpads as <-.
  apply np_pad_shape in Hpad as [Hlen ->]. rewrite Hs in *.
  destruct (half_split (fst target_size - h)) as (_ & Hs0 & _).
  destruct (half_split (snd target_size - w)) as (_ & Hs1 & _).
  destruct grayscale; simpl in Hlen.
  - destruct rest; [| discriminate]. split; [| reflexivity].
    unfold padded_shape. simpl. f_equal; [lia |]. f_equal. lia.
  - destruct rest as [| c [| c' rest]]; try discriminate. split; [| reflexivity].
    unfold padded_shape. simpl. f_equal; [lia |]. f_equal; [lia |]. f_equal. lia.
Qed.

End ReshapeMore.

Section ReshapeFurther.
Context {E : Type} `{Dtype E} (env : Env E).

(** Whenever [reshape_face] returns, the tensor is (1, target_size[0],
    target_size[1], channels), with a single channel when grayscale was asked
    for, and the region comes back as it was given. *)
Theorem reshape_face_returns_target_shape (img : ndarray E) (reg : region)
    (target_size : Z * Z) (grayscale : bool) (out : ndarray E) (r : region) :
  reshape_face env img reg target_size grayscale = Ok (out, r) ->
  r = reg
  /\ exists c, shape out = [1; fst target_size; snd target_size; c]
               /\ (grayscale = true -> c = 1).
Proof.
  intros Hrun.
  apply reshape_face_inv in Hrun
    as (img1 & dw & dh & resized & pads & padded & img2 & pixels
        & _ & _ & Hres & Hpads & Hpad & Hback & Harr & -> & ->).
  split; [reflexivity |].
  assert (Hshape : exists rest, shape resized = dh :: dw :: rest).
  { apply cv2_resize_shape in Hres as [[_ ->] | (h & w & c & _ & ->)]; [eauto |].
    destruct (c =? 1); eauto. }
  destruct Hshape as [rest Hs].
  destruct (np_pad_reaches_target target_size resized padded grayscale dh dw rest pads
              Hs Hpads Hpad) as [Hp Hrest].
  rewrite Hp in Hback. simpl take in Hback.
  rewrite bool_decide_eq_false_2 in Hback by (intros Hne; apply Hne; reflexivity).
  injection Hback as <-.
  unfold img_to_array in Harr. rewrite Hp in Harr.
  destruct grayscale.
  - destruct rest; [| discriminate]. injection Harr as <-.
    exists 1. split; [reflexivity | reflexivity].
  - destruct rest as [| c [| c' rest]]; try discriminate. injection Harr as <-.
    exists c. split; [simpl; rewrite Hp; reflexivity | discriminate].
Qed.

(** An image without height or without width cannot be reshaped: the scale
    factor divides by zero, and with grayscale the colour conversion refuses
    the empty image first. *)
Theorem reshape_face_empty_image (img : ndarray E) (reg : region) (target_size : Z * Z)
    (grayscale : bool) (h w : Z) (rest : list Z) :
  shape img = h :: w :: rest ->
  h = 0 \/ w = 0 ->
  reshape_face env img reg target_size grayscale
  = Raise (if grayscale then Cv2Error else ZeroDivisionError).
Proof.
  intros Hs Hzero. unfold reshape_face. destruct grayscale.
  - unfold cv2_cvtColor_BGR2GRAY. rewrite Hs.
    destruct rest as [| c [| c' rest]]; try reflexivity.
    replace ((0 <? h) && (0 <? w)) with false; [reflexivity |].
    symmetry. destruct Hzero as [-> | ->]; [reflexivity | apply andb_false_r].
  - unfold rbind at 1. unfold scaled_dsize, shape_at, py_index. rewrite Hs. simpl.
    unfold py_truediv. destruct Hzero as [-> | ->]; [reflexivity |].
    destruct (h =? 0); reflexivity.
Qed.

(** Without the grayscale flag, a two-dimensional image and an image with a
    single channel never come back: the resized image has two dimensions and
    [np.pad] is given three pairs of widths. *)
Theorem reshape_face_single_channel (img : ndarray E) (reg : region) (target_size : Z * Z)
    (h w : Z) :
  shape img = [h; w] \/ shape img = [h; w; 1] ->
  exists e, reshape_face env img reg target_size false = Raise e.
Proof.
  intros Hs.
  destruct (reshape_face env img reg target_size false) as [[out r] | e] eqn:Hrun;
    [exfalso | exists e; reflexivity].
  apply reshape_face_inv in Hrun
    as (img1 & dw & dh & resized & pads & padded & img2 & pixels
        & Himg & _ & Hres & Hpads & Hpad & _).
  injection Himg as <-.
  assert (Hshape : shape resized = [dh; dw]).
  { apply cv2_resize_shape in Hres as [[_ ->] | (h' & w' & c & Hs' & ->)]; [reflexivity |].
    destruct Hs as [Hs | Hs]; rewrite Hs in Hs'; [discriminate |].
    injection Hs' as _ _ <-. reflexivity. }
  destruct (np_pad_reaches_target target_size resized padded false dh dw [] pads
              Hshape Hpads Hpad) as [_ Hlen].
  discriminate.
Qed.

End ReshapeFurther.

Lemma reshape_face_returns_target_shape_witness :
  [0; 0; 2; 3] = [0; 0; 2; 3]
  /\ exists c,
       shape (filled [1; 4; 5; 3] 0%float) = [1; 4; 5; c] /\ (false = true -> c = 1).
Proof.
  exact (reshape_face_returns_target_shape (demo_env no_face) (filled [2; 3; 3] 1%float)
           [0; 0; 2; 3] (4, 5) false (filled [1; 4; 5; 3] 0%float) [0; 0; 2; 3] eq_refl).
Defined.

Lemma reshape_face_empty_image_witness :
  reshape_face (demo_env no_face) (filled [0; 5; 3] 0%float) [0; 0; 0; 5] (224, 224) false
  = Raise ZeroDivisionError.
Proof.
  apply (reshape_face_empty_image (demo_env no_face) (filled [0; 5; 3] 0%float) [0; 0; 0; 5]
           (224, 224) false 0 5 [3]).
  - reflexivity.
  - left. reflexivity.
Defined.

Lemma reshape_face_single_channel_witness :
  exists e,
    reshape_face (demo_env no_face) (filled [2; 3; 1] 0%float) [0; 0; 2; 3] (4, 5) false
    = Raise e.
Proof.
  apply (reshape_face_single_channel (demo_env no_face) (filled [2; 3; 1] 0%float)
           [0; 0; 2; 3] (4, 5) 2 3).
  right. reflexivity.
Defined.

(** ** preprocess_face *)

Section PreprocessMore.
Context {E : Type} `{Dtype E} (env : Env E).

Lemma load_image_array (st : state E) (l : loc) (a : ndarray E) (h w : Z) (rest : list Z) :
  heap st !! l = Some a ->
  shape a = h :: w :: rest ->
  load_image env (PArr l) st = (Ok (PArr l), st).
Proof.
  intros Hl Hs. unfold load_image, base64_test; run. rewrite Hl.
  unfold np_len. rewrite Hs. simpl. rewrite andb_false_r. reflexivity.
Qed.

Lemma np_copy_run (st : state E) (l : loc) (a : ndarray E) :
  heap st !! l = Some a ->
  exists lb st',
    np_copy (PArr l) st = (Ok lb, st')
    /\ heap st' !! lb = Some a
    /\ heap st ⊆ heap st'
    /\ trace st' = trace st.
Proof.
  intros Hl. unfold np_copy, bind, deref. rewrite Hl.
  eexists _, _. split; [reflexivity |]. split; [apply lookup_insert_eq |].
  split; [| reflexivity]. apply (alloc_heap a st).
Qed.

Lemma np_copy_heap (v : pyval) (st st' : state E) (r : result loc) :
  np_copy v st = (r, st') -> heap st ⊆ heap st'.
Proof.
  destruct v as [| s | l]; simpl; try (intros [= _ <-]; reflexivity).
  unfold bind, deref. destruct (heap st !! l) as [a |]; intros [= _ <-]; [| reflexivity].
  apply (alloc_heap a st).
Qed.

Lemma call_reshape_face_heap (img : loc) (reg : region) (target_size : Z * Z)
    (grayscale : bool) (st st' : state E) (r : result (loc * region)) :
  call_reshape_face env img reg target_size grayscale st = (r, st') -> heap st ⊆ heap st'.
Proof.
  unfold call_reshape_face, bind, deref, lift.
  destruct (heap st !! img) as [a |]; [| intros [= _ <-]; reflexivity].
  destruct (reshape_face env a reg target_size grayscale) as [out | e];
    intros [= _ <-]; [| reflexivity].
  apply (alloc_heap (fst out) st).
Qed.

Lemma call_reshape_face_run (img : loc) (reg : region) (target_size : Z * Z)
    (grayscale : bool) (st : state E) (used : ndarray E) :
  heap st !! img = Some used ->
  (forall e, reshape_face env used reg target_size grayscale = Raise e ->
     call_reshape_face env img reg target_size grayscale st = (Raise e, st))
  /\ (forall t r, reshape_face env used reg target_size grayscale = Ok (t, r) ->
        exists lt st',
          call_reshape_face env img reg target_size grayscale st = (Ok (lt, r), st')
          /\ heap st' !! lt = Some t
          /\ heap st ⊆ heap st').
Proof.
  intros Hl. unfold call_reshape_face, bind, deref, lift. rewrite Hl. split.
  - intros e ->. reflexivity.
  - intros t r ->. eexists _, _. split; [reflexivity |].
    split; [apply lookup_insert_eq | apply (alloc_heap t st)].
Qed.

(** From the first face on: a crop without extent is replaced by a copy of
    the base image, and the outcome is that of [reshape_face] on the array
    used. *)
Lemma preprocess_face_tail (st : state E) (lb fl : loc) (a c : ndarray E) (reg : region)
    (target_size : Z * Z) (grayscale : bool) :
  heap st !! lb = Some a ->
  heap st !! fl = Some c ->
  is_image c = true ->
  let used := if zero_height_or_width c then a else c in
  let tail :=
    (let* a := deref fl in
     let* z := lift (zero_extent a) in
     let* img := (if z then np_copy (PArr lb) else ret fl) in
     call_reshape_face env img reg target_size grayscale) in
  (forall e, reshape_face env used reg target_size grayscale = Raise e ->
     fst (tail st) = Raise e)
  /\ (forall t r, reshape_face env used reg target_size grayscale = Ok (t, r) ->
        exists lt st',
          tail st = (Ok (lt, r), st')
          /\ heap st' !! lt = Some t
          /\ heap st ⊆ heap st').
Proof.
  intros Hlb Hfl Himg used tail.
  assert (Hstep : tail st
                  = (let* img := (if zero_height_or_width c then np_copy (PArr lb) else ret fl) in
                     call_reshape_face env img reg target_size grayscale) st).
  { subst tail. unfold bind at 1. unfold deref at 1. rewrite Hfl.
    unfold bind at 1. unfold lift at 1. rewrite (zero_extent_image c Himg). reflexivity. }
  rewrite Hstep. clear Hstep tail. subst used. destruct (zero_height_or_width c).
  - destruct (np_copy_run st lb a Hlb) as (l3 & st3 & Hcopy & Hl3 & Hsub & _).
    unfold bind. rewrite Hcopy.
    destruct (call_reshape_face_run l3 reg target_size grayscale st3 a Hl3) as [Herr Hok].
    split.
    + intros e He. rewrite (Herr e He). reflexivity.
    + intros t r Hr. destruct (Hok t r Hr) as (lt & st' & Hrun & Hlt & Hsub').
      exists lt, st'. split; [exact Hrun |]. split; [exact Hlt |].
      etrans; [exact Hsub | exact Hsub'].
  - unfold bind, ret.
    destruct (call_reshape_face_run fl reg target_size grayscale st c Hfl) as [Herr Hok].
    split.
    + intros e He. rewrite (Herr e He). reflexivity.
    + exact Hok.
Qed.

End PreprocessMore.

Section PreprocessFurther.
Context {E : Type} `{Dtype E} (env : Env E).

Lemma preprocess_face_after_detection (img : pyval) (target_size : Z * Z)
    (grayscale enforce_detection : bool) (detector_backend : string) (align : bool)
    (st st1 st2 st3 : state E) (l lb fl : loc) (reg : region) (more : list (loc * region)) :
  load_image env img st = (Ok (PArr l), st1) ->
  np_copy (PArr l) st1 = (Ok lb, st2) ->
  detect_faces env (PArr l) enforce_detection detector_backend align st2
  = (Ok ((fl, reg) :: more), st3) ->
  preprocess_face env img target_size grayscale enforce_detection detector_backend align st
  = (let* a := deref fl in
     let* z := lift (zero_extent a) in
     let* img := (if z then np_copy (PArr lb) else ret fl) in
     call_reshape_face env img reg target_size grayscale) st3.
Proof.
  intros Hload Hcopy Hdet. unfold preprocess_face.
  unfold bind at 1. rewrite Hload.
  unfold bind at 1. rewrite Hcopy.
  unfold bind at 1. rewrite Hdet.
  unfold bind at 1. reflexivity.
Qed.

(** With the backend "skip" the tensor is [reshape_face] of the loaded image
    with the whole-image region: what [reshape_face] raises is raised, what it
    returns is returned as a new array, and the image is left as it was. *)
Theorem preprocess_face_skip (img : pyval) (target_size : Z * Z)
    (grayscale enforce_detection align : bool) (st st1 : state E) (l : loc)
    (a : ndarray E) (h w : Z) (rest : list Z) :
  load_image env img st = (Ok (PArr l), st1) ->
  heap st1 !! l = Some a ->
  shape a = h :: w :: rest ->
  (forall e, reshape_face env a [0; 0; h; w] target_size grayscale = Raise e ->
     fst (preprocess_face env img target_size grayscale enforce_detection "skip" align st)
     = Raise e)
  /\ (forall t r, reshape_face env a [0; 0; h; w] target_size grayscale = Ok (t, r) ->
        exists lt st',
          preprocess_face env img target_size grayscale enforce_detection "skip" align st
          = (Ok (lt, r), st')
          /\ heap st' !! lt = Some t
          /\ heap st' !! l = Some a).
Proof.
  intros Hload Hl Hs.
  destruct (np_copy_run st1 l a Hl) as (lb & st2 & Hcopy & Hlb & Hsub & _).
  assert (Hl2 : heap st2 !! l = Some a) by (eapply lookup_weaken; eassumption).
  assert (Hdet : detect_faces env (PArr l) enforce_detection "skip" align st2
                 = (Ok [(l, [0; 0; h; w])], st2)).
  { unfold detect_faces. unfold bind at 1. rewrite (load_image_array env st2 l a h w rest Hl2 Hs).
    unfold bind. rewrite (whole_image_region_image _ _ _ _ _ _ Hl2 Hs). reflexivity. }
  rewrite (preprocess_face_after_detection img target_size grayscale enforce_detection "skip"
             align st st1 st2 st2 l lb l [0; 0; h; w] [] Hload Hcopy Hdet).
  assert (Himg : is_image a = true) by (unfold is_image; rewrite Hs; reflexivity).
  destruct (preprocess_face_tail env st2 lb l a a [0; 0; h; w] target_size grayscale
              Hlb Hl2 Himg) as [Herr Hok].
  replace (if zero_height_or_width a then a else a) with a in Herr, Hok
    by (destruct (zero_height_or_width a); reflexivity).
  split; [exact Herr |].
  intros t r Hr. destruct (Hok t r Hr) as (lt & st' & Hrun & Hlt & Hsub').
  exists lt, st'. split; [exact Hrun |]. split; [exact Hlt |].
  eapply lookup_weaken; eassumption.
Qed.

(** Only the first face counts. When the backend finds faces and the final
    loop of [detect_faces] lets them pass, the tensor is [reshape_face] of the
    first crop with its region; a first crop without extent is replaced by
    the whole image, and the region returned is still that crop's. *)
Theorem preprocess_face_first_face (img : pyval) (target_size : Z * Z)
    (grayscale enforce_detection : bool) (detector_backend : string) (align : bool)
    (st st1 : state E) (l : loc) (a : ndarray E) (h w : Z) (rest : list Z)
    (face_detector : nat) (c : ndarray E) (reg : region) (more : list (ndarray E * region)) :
  load_image env img st = (Ok (PArr l), st1) ->
  heap st1 !! l = Some a ->
  shape a = h :: w :: rest ->
  String.eqb detector_backend "skip" = false ->
  build_model env detector_backend = Ok face_detector ->
  faces_found env face_detector detector_backend a align = (c, reg) :: more ->
  Forall (fun cr => is_image cr.1 = true) ((c, reg) :: more) ->
  enforce_detection = false
    \/ Forall (fun cr => zero_height_or_width cr.1 = false) ((c, reg) :: more) ->
  let used := if zero_height_or_width c then a else c in
  (forall e, reshape_face env used reg target_size grayscale = Raise e ->
     fst (preprocess_face env img target_size grayscale enforce_detection detector_backend
            align st) = Raise e)
  /\ (forall t r, reshape_face env used reg target_size grayscale = Ok (t, r) ->
        exists lt st',
          preprocess_face env img target_size grayscale enforce_detection detector_backend
            align st = (Ok (lt, r), st')
          /\ heap st' !! lt = Some t
          /\ heap st' !! l = Some a).
Proof.
  intros Hload Hl Hs Hskip Hbuild Hfound Himg Hok used.
  destruct (np_copy_run st1 l a Hl) as (lb & st2 & Hcopy & Hlb & Hsub & _).
  assert (Hl2 : heap st2 !! l = Some a) by (eapply lookup_weaken; eassumption).
  destruct (detect_faces_found_run env (PArr l) enforce_detection detector_backend align
              st2 st2 l a h w rest face_detector ((c, reg) :: more)
              (load_image_array env st2 l a h w rest Hl2 Hs) Hl2 Hs Hskip Hbuild Hfound
              ltac:(discriminate) Himg Hok)
    as (ls & st3 & Hdet & Hall & Hsub3 & _).
  destruct ls as [| [fl r0] ls]; [inversion Hall |].
  apply Forall2_cons in Hall as [[Hreg Hfl] _]. simpl in Hreg, Hfl. subst r0.
  rewrite (preprocess_face_after_detection img target_size grayscale enforce_detection
             detector_backend align st st1 st2 st3 l lb fl reg ls Hload Hcopy Hdet).
  apply Forall_cons in Himg as [Hc _]. simpl in Hc.
  assert (Hlb3 : heap st3 !! lb = Some a) by (eapply lookup_weaken; eassumption).
  assert (Hl3 : heap st3 !! l = Some a) by (eapply lookup_weaken; eassumption).
  destruct (preprocess_face_tail env st3 lb fl a c reg target_size grayscale Hlb3 Hfl Hc)
    as [Herr Hret].
  split; [exact Herr |].
  intros t r Hr. destruct (Hret t r Hr) as (lt & st' & Hrun & Hlt & Hsub').
  exists lt, st'. split; [exact Hrun |]. split; [exact Hlt |].
  eapply lookup_weaken; eassumption.
Qed.

(** Whatever [preprocess_face] does, raising included, it writes no array
    that existed before the call. *)
Theorem preprocess_face_keeps_arrays (img : pyval) (target_size : Z * Z)
    (grayscale enforce_detection : bool) (detector_backend : string) (align : bool)
    (st st' : state E) (r : result (loc * region)) (l : loc) (a : ndarray E) :
  preprocess_face env img target_size grayscale enforce_detection detector_backend align st
  = (r, st') ->
  heap st !! l = Some a ->
  heap st' !! l = Some a.
Proof.
  intros Hrun Hl. eapply lookup_weaken; [exact Hl |]. clear Hl.
  revert Hrun. unfold preprocess_face. unfold bind at 1.
  destruct (load_image env img st) as [[v | e] st1] eqn:Hload;
    apply load_image_heap in Hload; [| intros [= _ <-]; exact Hload].
  unfold bind at 1.
  destruct (np_copy v st1) as [[lb | e] st2] eqn:Hcopy;
    apply np_copy_heap in Hcopy; [| intros [= _ <-]; etrans; eassumption].
  unfold bind at 1.
  destruct (detect_faces env v enforce_detection detector_backend align st2)
    as [[faces | e] st3] eqn:Hdet;
    apply detect_faces_heap in Hdet;
    [| intros [= _ <-]; etrans; [exact Hload | etrans; eassumption]].
  assert (H3 : heap st ⊆ heap st3) by (etrans; [exact Hload | etrans; eassumption]).
  unfold bind at 1. unfold lift at 1.
  destruct (py_index faces 0) as [[fl reg] | e]; [| intros [= _ <-]; exact H3].
  simpl fst. simpl snd.
  unfold bind at 1. unfold deref at 1.
  destruct (heap st3 !! fl) as [c |]; [| intros [= _ <-]; exact H3].
  unfold bind at 1. unfold lift at 1.
  destruct (zero_extent c) as [z | e]; [| intros [= _ <-]; exact H3].
  unfold bind at 1.
  destruct ((if z then np_copy (PArr lb) else ret fl) st3) as [[used | e] st4] eqn:Hused.
  - assert (H4 : heap st3 ⊆ heap st4).
    { destruct z; [exact (np_copy_heap _ _ _ _ Hused) |].
      injection Hused as _ <-. reflexivity. }
    intros Hrun. apply call_reshape_face_heap in Hrun.
    etrans; [exact H3 | etrans; eassumption].
  - assert (H4 : heap st3 ⊆ heap st4).
    { destruct z; [exact (np_copy_heap _ _ _ _ Hused) |].
      injection Hused as _ <-. reflexivity. }
    intros [= _ <-]. etrans; eassumption.
Qed.

End PreprocessFurther.

Lemma preprocess_face_skip_witness :
  exists lt st',
    preprocess_face (demo_env no_face) (PArr 0%nat) (4, 5) false true "skip" true
      (one_array (filled [2; 3; 3] 0%float)) = (Ok (lt, [0; 0; 2; 3]), st')
    /\ heap st' !! lt = Some (filled [1; 4; 5; 3] 0%float)
    /\ heap st' !! 0%nat = Some (filled [2; 3; 3] 0%float).
Proof.
  exact (proj2 (preprocess_face_skip (demo_env no_face) (PArr 0%nat) (4, 5) false true true
                  (one_array (filled [2; 3; 3] 0%float)) (one_array (filled [2; 3; 3] 0%float))
                  0%nat (filled [2; 3; 3] 0%float) 2 3 [3] eq_refl eq_refl eq_refl)
           (filled [1; 4; 5; 3] 0%float) [0; 0; 2; 3] eq_refl).
Defined.

Lemma preprocess_face_first_face_witness :
  exists lt st',
    preprocess_face (demo_env flat_first_face) (PArr 0%nat) (4, 5) false false "opencv" true
      (one_array (filled [2; 3; 3] 0%float)) = (Ok (lt, [1; 2; 0; 4]), st')
    /\ heap st' !! lt = Some (filled [1; 4; 5; 3] 0%float)
    /\ heap st' !! 0%nat = Some (filled [2; 3; 3] 0%float).
Proof.
  exact (proj2 (preprocess_face_first_face (demo_env flat_first_face) (PArr 0%nat) (4, 5) false
                  false "opencv" true
                  (one_array (filled [2; 3; 3] 0%float)) (one_array (filled [2; 3; 3] 0%float))
                  0%nat (filled [2; 3; 3] 0%float) 2 3 [3] 0%nat
                  (filled [4; 0; 3] 0%float) [1; 2; 0; 4] []
                  eq_refl eq_refl eq_refl eq_refl eq_refl eq_refl
                  ltac:(repeat constructor) (or_introl eq_refl))
           (filled [1; 4; 5; 3] 0%float) [1; 2; 0; 4] eq_refl).
Defined.

Lemma preprocess_face_keeps_arrays_witness :
  heap (snd (preprocess_face (demo_env two_faces) (PArr 0%nat) (4, 5) false true "opencv" true
               (one_array (filled [5; 5; 3] 0%float)))) !! 0%nat
  = Some (filled [5; 5; 3] 0%float).
Proof.
  apply (preprocess_face_keeps_arrays (demo_env two_faces) (PArr 0%nat) (4, 5) false true
           "opencv" true (one_array (filled [5; 5; 3] 0%float)) _ _ 0%nat
           (filled [5; 5; 3] 0%float) (surjective_pairing _)).
  reflexivity.
Defined.

(** ** initialize_input *)

Section InitializeInputFacts.
Context {E : Type} `{Truth E}.

(** A single first image and an array as the second: the pair is formed only
    if the array has an element that is true. An array of zeros (a black
    image) is dropped, as if no second image had been given. *)
Theorem initialize_input_second_array (img1_path : pyobj) (l : loc) (a : ndarray E)
    (st : state E) :
  is_list img1_path = false ->
  heap st !! l = Some a ->
  (Exists (fun x => truthy x = true) (data a) ->
     initialize_input img1_path (OArr l) st
     = (Ok (OList [OList [img1_path; OArr l]], false), st))
  /\ (Forall (fun x => truthy x = false) (data a) ->
        initialize_input img1_path (OArr l) st = (Ok (OList [img1_path], false), st)
        /\ initialize_input img1_path (OArr l) st = initialize_input img1_path ONone st).
Proof.
  intros Hlist Hl.
  assert (Hrun : initialize_input img1_path (OArr l) st
                 = (if np_any a then (Ok (OList [OList [img1_path; OArr l]], false), st)
                    else (Ok (OList [img1_path], false), st))).
  { destruct img1_path; try discriminate;
      unfold initialize_input, second_image_given, bind, deref, ret; rewrite Hl;
      destruct (np_any a); reflexivity. }
  assert (Hnone : initialize_input img1_path ONone st = (Ok (OList [img1_path], false), st)).
  { destruct img1_path; try discriminate; reflexivity. }
  rewrite Hrun, Hnone. unfold np_any. split.
  - intros Hex. replace (existsb truthy (data a)) with true; [reflexivity |].
    symmetry. apply existsb_exists. apply Exists_exists in Hex as (x & Hin & Hx).
    exists x. split; [apply list_elem_of_In; exact Hin | exact Hx].
  - intros Hall. replace (existsb truthy (data a)) with false; [split; reflexivity |].
    symmetry. apply not_true_is_false. intros Hex.
    apply existsb_exists in Hex as (x & Hin & Hx).
    rewrite Forall_forall in Hall. apply list_elem_of_In in Hin.
    rewrite (Hall x Hin) in Hx. discriminate.
Qed.

End InitializeInputFacts.

Lemma initialize_input_second_array_witness :
  initialize_input (OStr "a.jpg") (OArr 0%nat) (one_array (filled [2; 2; 3] 0%float))
  = (Ok (OList [OStr "a.jpg"], false), one_array (filled [2; 2; 3] 0%float))
  /\ initialize_input (OStr "a.jpg") (OArr 0%nat) (one_array (filled [2; 2; 3] 0%float))
     = initialize_input (OStr "a.jpg") ONone (one_array (filled [2; 2; 3] 0%float)).
Proof.
  apply (proj2 (initialize_input_second_array (OStr "a.jpg") 0%nat (filled [2; 2; 3] 0%float)
                  (one_array (filled [2; 2; 3] 0%float)) eq_refl eq_refl)).
  repeat constructor.
Defined.

(** ** find_input_shape *)

(** A first layer that declares (batch, height, width, ...), as a tuple or
    as a list holding that tuple: the answer is the tuple (height, width), and
    (width, height) under TensorFlow 2.5 and later. *)
Theorem find_input_shape_declared (tf_major_version tf_minor_version : Z)
    (batch height width : pyshape) (channels : list pyshape) (layers : list pyshape) :
  let declared := STuple (batch :: height :: width :: channels) in
  let answer :=
    Ok (STuple (if (tf_major_version =? 2) && (5 <=? tf_minor_version)
                then [width; height] else [height; width])) in
  find_input_shape tf_major_version tf_minor_version (declared :: layers) = answer
  /\ find_input_shape tf_major_version tf_minor_version (SList [declared] :: layers) = answer.
Proof.
  unfold find_input_shape. simpl.
  destruct ((tf_major_version =? 2) && (5 <=? tf_minor_version)); split; reflexivity.
Qed.

(** Whatever the layer declares, a list included, what comes back is a tuple
    of at most two entries, never a list. *)
Theorem find_input_shape_tuple (tf_major_version tf_minor_version : Z)
    (model : list pyshape) (r : pyshape) :
  find_input_shape tf_major_version tf_minor_version model = Ok r ->
  exists items, r = STuple items /\ (length items <= 2)%nat.
Proof.
  unfold find_input_shape. intros Hrun.
  apply rbind_ok in Hrun as (declared & _ & Hrun).
  apply rbind_ok in Hrun as (sliced & Hslice & Hrun).
  assert (Hsliced : exists items,
             (sliced = STuple items \/ sliced = SList items) /\ (length items <= 2)%nat).
  { assert (Hs : forall x, shape_slice_1_3 x = Ok sliced ->
               exists items, (sliced = STuple items \/ sliced = SList items)
                             /\ (length items <= 2)%nat).
    { intros x Hx. destruct x as [| n | items | items]; try discriminate;
        injection Hx as <-; eexists; (split; [eauto |]); rewrite length_take; lia. }
    destruct (is_pylist declared); [| exact (Hs _ Hslice)].
    apply rbind_ok in Hslice as (first & _ & Hslice). exact (Hs _ Hslice). }
  destruct Hsliced as (items & Hkind & Hlen).
  apply rbind_ok in Hrun as (swapped & Hswap & Hrun). injection Hrun as <-.
  destruct ((tf_major_version =? 2) && (5 <=? tf_minor_version)).
  - apply rbind_ok in Hswap as (x & _ & Hswap).
    apply rbind_ok in Hswap as (y & _ & Hswap). injection Hswap as <-.
    exists [y; x]. split; [reflexivity | simpl; lia].
  - injection Hswap as <-. exists items.
    destruct Hkind as [-> | ->]; (split; [reflexivity | exact Hlen]).
Qed.

Lemma find_input_shape_tuple_witness :
  exists items, STuple [SInt 112; SInt 96] = STuple items /\ (length items <= 2)%nat.
Proof.
  exact (find_input_shape_tuple 2 9 [SList [SList [SNone; SInt 96; SInt 112; SInt 3]]]
           (STuple [SInt 112; SInt 96]) eq_refl).
Defined.

(** ** initialize_folder *)

Section InitializeFolderFacts.
Context (os : Os).

Lemma ensure_directory_present (home suffix : string) (w : os_state) :
  home +:+ suffix ∈ paths w -> ensure_directory os home suffix w = Ok w.
Proof.
  intros Hin. unfold ensure_directory. rewrite bool_decide_eq_true_2 by exact Hin.
  reflexivity.
Qed.

Lemma ensure_directory_effect (home suffix : string) (w w' : os_state) :
  (forall p fs fs', os_makedirs os p fs = Ok fs' -> p ∈ fs' /\ fs ⊆ fs') ->
  ensure_directory os home suffix w = Ok w' ->
  home +:+ suffix ∈ paths w' /\ paths w ⊆ paths w' /\ environ w' = environ w.
Proof.
  intros Hmk. unfold ensure_directory. case_bool_decide as Hin.
  - intros [= <-]. split; [exact Hin |]. split; reflexivity.
  - intros Hrun. apply rbind_ok in Hrun as (created & Hcreated & Hrun).
    injection Hrun as <-. apply Hmk in Hcreated as [Hp Hsub]. simpl.
    split; [exact Hp |]. split; [exact Hsub | reflexivity].
Qed.

(** On a system where a successful [os.makedirs] leaves its path in place
    and removes nothing: after [initialize_folder] both directories exist,
    every path that existed still does, and a second call changes nothing and
    prints nothing. *)
Theorem initialize_folder_idempotent (w w' : os_state) :
  (forall p fs fs', os_makedirs os p fs = Ok fs' -> p ∈ fs' /\ fs ⊆ fs') ->
  initialize_folder os w = Ok w' ->
  get_deepface_home os w +:+ "/.deepface" ∈ paths w'
  /\ get_deepface_home os w +:+ "/.deepface/weights" ∈ paths w'
  /\ paths w ⊆ paths w'
  /\ initialize_folder os w' = Ok w'.
Proof.
  intros Hmk Hrun. unfold initialize_folder in Hrun.
  apply rbind_ok in Hrun as (w1 & H1 & H2).
  destruct (ensure_directory_effect _ _ _ _ Hmk H1) as (Hd1 & Hsub1 & Henv1).
  destruct (ensure_directory_effect _ _ _ _ Hmk H2) as (Hd2 & Hsub2 & Henv2).
  assert (Hd1' : get_deepface_home os w +:+ "/.deepface" ∈ paths w')
    by exact (Hsub2 _ Hd1).
  split; [exact Hd1' |]. split; [exact Hd2 |]. split; [etrans; eassumption |].
  unfold initialize_folder.
  assert (Hhome : get_deepface_home os w' = get_deepface_home os w).
  { unfold get_deepface_home. rewrite Henv2, Henv1. reflexivity. }
  rewrite Hhome. rewrite (ensure_directory_present _ _ _ Hd1'). simpl.
  exact (ensure_directory_present _ _ _ Hd2).
Qed.

End InitializeFolderFacts.

Lemma initialize_folder_idempotent_witness :
  initialize_folder simple_os
    (mk_os {[ "DEEPFACE_HOME" := "/data/faces" ]}
       ({[ "/data/faces/.deepface/weights" ]} ∪ ({[ "/data/faces/.deepface" ]} ∪ {[ "/data/faces" ]}))
       [["Directory "; "/data/faces"; "/.deepface created"];
        ["Directory "; "/data/faces"; "/.deepface/weights created"]])
  = Ok (mk_os {[ "DEEPFACE_HOME" := "/data/faces" ]}
          ({[ "/data/faces/.deepface/weights" ]} ∪ ({[ "/data/faces/.deepface" ]} ∪ {[ "/data/faces" ]}))
          [["Directory "; "/data/faces"; "/.deepface created"];
           ["Directory "; "/data/faces"; "/.deepface/weights created"]]).
Proof.
  exact (proj2 (proj2 (proj2
           (initialize_folder_idempotent simple_os
              (mk_os {[ "DEEPFACE_HOME" := "/data/faces" ]} {[ "/data/faces" ]} [])
              (mk_os {[ "DEEPFACE_HOME" := "/data/faces" ]}
                 ({[ "/data/faces/.deepface/weights" ]} ∪ ({[ "/data/faces/.deepface" ]} ∪ {[ "/data/faces" ]}))
                 [["Directory "; "/data/faces"; "/.deepface created"];
                  ["Directory "; "/data/faces"; "/.deepface/weights created"]])
              ltac:(intros p fs fs'; simpl; case_bool_decide; [discriminate |];
                    intros [= <-]; set_solver)
              ltac:(vm_compute; reflexivity))))).
Defined.

(** ** reshape_face: the padding around the resized image *)

Section PaddingLayout.
Context {E : Type}.

Lemma concat_chunks (n k : nat) (l : list E) :
  concat (chunks n k l) = take (n * k) l.
Proof.
  revert l. induction k as [| k IH]; intros l; simpl.
  - rewrite Nat.mul_0_r. reflexivity.
  - rewrite IH, take_take_drop. f_equal. lia.
Qed.

Lemma chunks_bounded (n k : nat) (l : list E) :
  Forall (fun ch => (length ch <= n)%nat) (chunks n k l).
Proof.
  revert l. induction k as [| k IH]; intros l; simpl; constructor.
  - rewrite length_take. lia.
  - apply IH.
Qed.

Lemma chunks_from (n k j : nat) (l : list E) :
  chunks n k (drop (j * n) l) = map (fun i => take n (drop (i * n) l)) (seq j k).
Proof.
  revert j. induction k as [| k IH]; intros j; simpl; [reflexivity |].
  f_equal. rewrite drop_drop. replace (j * n + n)%nat with (S j * n)%nat by lia.
  apply IH.
Qed.

Lemma chunks_rows (n k : nat) (l : list E) :
  chunks n k l = map (fun i => take n (drop (i * n) l)) (seq 0 k).
Proof. exact (chunks_from n k 0 l). Qed.

Lemma map_id_bounded (f : list E -> list E) (n : nat) (chs : list (list E)) :
  (forall ch, (length ch <= n)%nat -> f ch = ch) ->
  Forall (fun ch => (length ch <= n)%nat) chs ->
  map f chs = chs.
Proof.
  intros Hf Hall. induction Hall as [| ch chs Hch _ IH]; simpl; [reflexivity |].
  rewrite (Hf ch Hch), IH. reflexivity.
Qed.

(** The channel axis is not padded: a pixel stays as it is. *)
Lemma pad_data_pixel (zero : E) (rest : list Z) (pr : list (Z * Z)) (px : list E) :
  (rest = [] /\ pr = []) \/ (exists c, rest = [c] /\ pr = [(0, 0)]) ->
  (length px <= Z.to_nat (prod_shape rest))%nat ->
  pad_data zero rest pr px = px.
Proof.
  intros [[-> ->] | (c & -> & ->)] Hlen; [reflexivity |].
  simpl. rewrite app_nil_r.
  change (Z.to_nat (prod_shape [])) with 1%nat.
  rewrite (map_id_bounded (pad_data zero [] []) 1); [| reflexivity | apply chunks_bounded].
  rewrite concat_chunks. apply take_ge.
  unfold prod_shape in Hlen. simpl in Hlen. rewrite Z.mul_1_r in Hlen. lia.
Qed.

Lemma padded_channels (rest : list Z) (pr : list (Z * Z)) :
  (rest = [] /\ pr = []) \/ (exists c, rest = [c] /\ pr = [(0, 0)]) ->
  prod_shape (padded_shape rest pr) = prod_shape rest.
Proof.
  intros [[-> ->] | (c & -> & ->)]; [reflexivity |].
  unfold padded_shape, prod_shape. simpl. lia.
Qed.

(** A row gets its zeros in front and behind. *)
Lemma pad_data_row (zero : E) (w' left right : Z) (rest : list Z) (pr : list (Z * Z))
    (row : list E) :
  (rest = [] /\ pr = []) \/ (exists c, rest = [c] /\ pr = [(0, 0)]) ->
  0 <= w' -> 0 <= prod_shape rest ->
  (length row <= Z.to_nat (w' * prod_shape rest))%nat ->
  pad_data zero (w' :: rest) ((left, right) :: pr) row
  = replicate (Z.to_nat left * Z.to_nat (prod_shape rest)) zero
    ++ row
    ++ replicate (Z.to_nat right * Z.to_nat (prod_shape rest)) zero.
Proof.
  intros Hkind Hw HC Hlen.
  change (pad_data zero (w' :: rest) ((left, right) :: pr) row)
    with (replicate (Z.to_nat left * Z.to_nat (prod_shape (padded_shape rest pr))) zero
          ++ concat (map (pad_data zero rest pr)
                       (chunks (Z.to_nat (prod_shape rest)) (Z.to_nat w') row))
          ++ replicate (Z.to_nat right * Z.to_nat (prod_shape (padded_shape rest pr))) zero).
  rewrite (padded_channels rest pr Hkind).
  rewrite (map_id_bounded (pad_data zero rest pr) (Z.to_nat (prod_shape rest)));
    [| intros ch Hch; exact (pad_data_pixel zero rest pr ch Hkind Hch) | apply chunks_bounded].
  rewrite concat_chunks, take_ge; [reflexivity |].
  rewrite Z2Nat.inj_mul in Hlen by assumption. lia.
Qed.

(** The whole image: zero rows above and below, and between them each row of
    the content with its zeros in front and behind. *)
Lemma pad_data_image (zero : E) (h' w' top bottom left right : Z) (rest : list Z)
    (pr : list (Z * Z)) (d : list E) :
  (rest = [] /\ pr = []) \/ (exists c, rest = [c] /\ pr = [(0, 0)]) ->
  0 <= w' -> 0 <= prod_shape rest ->
  pad_data zero (h' :: w' :: rest) ((top, bottom) :: (left, right) :: pr) d
  = replicate (Z.to_nat top * Z.to_nat ((left + w' + right) * prod_shape rest)) zero
    ++ concat (map (fun i =>
                      replicate (Z.to_nat left * Z.to_nat (prod_shape rest)) zero
                      ++ take (Z.to_nat (w' * prod_shape rest))
                           (drop (i * Z.to_nat (w' * prod_shape rest)) d)
                      ++ replicate (Z.to_nat right * Z.to_nat (prod_shape rest)) zero)
                 (seq 0 (Z.to_nat h')))
    ++ replicate (Z.to_nat bottom * Z.to_nat ((left + w' + right) * prod_shape rest)) zero.
Proof.
  intros Hkind Hw HC.
  change (pad_data zero (h' :: w' :: rest) ((top, bottom) :: (left, right) :: pr) d)
    with (replicate (Z.to_nat top
                     * Z.to_nat (prod_shape (padded_shape (w' :: rest) ((left, right) :: pr)))) zero
          ++ concat (map (pad_data zero (w' :: rest) ((left, right) :: pr))
                       (chunks (Z.to_nat (prod_shape (w' :: rest))) (Z.to_nat h') d))
          ++ replicate (Z.to_nat bottom
                        * Z.to_nat (prod_shape (padded_shape (w' :: rest) ((left, right) :: pr))))
               zero).
  assert (Hinner' : prod_shape (padded_shape (w' :: rest) ((left, right) :: pr))
                    = (left + w' + right) * prod_shape rest).
  { change (padded_shape (w' :: rest) ((left, right) :: pr))
      with ((left + w' + right) :: padded_shape rest pr).
    unfold prod_shape at 1. simpl. fold (prod_shape (padded_shape rest pr)).
    rewrite (padded_channels rest pr Hkind). reflexivity. }
  assert (Hinner : prod_shape (w' :: rest) = w' * prod_shape rest) by reflexivity.
  rewrite Hinner', Hinner. f_equal. f_equal.
  rewrite chunks_rows, map_map. f_equal. apply map_ext. intros i.
  apply (pad_data_row zero w' left right rest pr _ Hkind Hw HC).
  rewrite length_take. lia.
Qed.

End PaddingLayout.

Section PaddingClaim.
Context {E : Type} `{Dtype E} (env : Env E).

Lemma cv2_resize_inv (src resized : ndarray E) (dw dh : Z) :
  cv2_resize env src (dw, dh) = Ok resized ->
  0 < dw /\ 0 < dh
  /\ exists rest, shape resized = dh :: dw :: rest
                  /\ (rest = [] \/ exists c, rest = [c] /\ 1 < c).
Proof.
  unfold cv2_resize.
  destruct (shape src) as [| h [| w [| c [| x rest]]]]; try discriminate.
  - destruct ((0 <? h) && (0 <? w) && (0 <? dw) && (0 <? dh) && cv2_resize_depth env) eqn:Hc;
      [| discriminate].
    intros [= <-]. repeat (apply andb_true_iff in Hc as [Hc ?]).
    split; [lia |]. split; [lia |]. exists []. split; [reflexivity | left; reflexivity].
  - destruct ((0 <? h) && (0 <? w) && (0 <? c) && (c <=? 512) && (0 <? dw) && (0 <? dh)
              && cv2_resize_depth env) eqn:Hc; [| discriminate].
    intros [= <-]. repeat (apply andb_true_iff in Hc as [Hc ?]).
    split; [lia |]. split; [lia |]. simpl.
    destruct (c =? 1) eqn:Hc1.
    + exists []. split; [reflexivity | left; reflexivity].
    + exists [c]. split; [reflexivity |]. right. exists c. split; [reflexivity | lia].
Qed.

Lemma np_pad_inv (img padded : ndarray E) (pads : list (Z * Z)) :
  np_pad img pads = Ok padded ->
  Forall (fun p => 0 <= fst p /\ 0 <= snd p) pads
  /\ length pads = length (shape img)
  /\ shape padded = padded_shape (shape img) pads
  /\ data padded = pad_data (lit (0 # 1)) (shape img) pads (data img).
Proof.
  unfold np_pad.
  destruct (existsb (fun p => (fst p <? 0) || (snd p <? 0)) pads) eqn:Hneg; [discriminate |].
  destruct (length pads =? length (shape img))%nat eqn:Hlen; [| discriminate].
  intros [= <-]. split; [| split; [apply Nat.eqb_eq; exact Hlen | split; reflexivity]].
  apply Forall_forall. intros p Hin.
  assert (Hp : (fst p <? 0) || (snd p <? 0) = false).
  { destruct ((fst p <? 0) || (snd p <? 0)) eqn:Hp; [| reflexivity].
    rewrite <- Hneg. symmetry. apply existsb_exists. exists p.
    split; [apply list_elem_of_In; exact Hin | exact Hp]. }
  apply orb_false_iff in Hp as [H1 H2]. lia.
Qed.

(** C6. Whenever [reshape_face] returns, its tensor holds (divided by 255)
    the image that [np.pad] made of the resized image, and that padding is
    split as evenly as possible on both spatial axes: the side before the
    content gets the floor of half the missing size, the side after it the
    remainder, so the two differ by at most one pixel. The padded image has the
    resized rows between [pad_top] rows of zeros above and [pad_bottom] below,
    each row between [pad_left] zero pixels in front and [pad_right] behind;
    the channel axis is not padded. *)
Theorem reshape_face_padding (img : ndarray E) (reg : region) (target_size : Z * Z)
    (grayscale : bool) (out : ndarray E) (r : region) :
  reshape_face env img reg target_size grayscale = Ok (out, r) ->
  exists src dw dh resized padded pad_top pad_bottom pad_left pad_right rest,
    (if grayscale then cv2_cvtColor_BGR2GRAY env img else Ok img) = Ok src
    /\ scaled_dsize target_size src = Ok (dw, dh)
    /\ cv2_resize env src (dw, dh) = Ok resized
    /\ shape resized = dh :: dw :: rest
    /\ np_pad resized ((pad_top, pad_bottom) :: (pad_left, pad_right)
                       :: (if grayscale then [] else [(0, 0)])) = Ok padded
    /\ data out = map (fun x => el_div x (lit (255 # 1))) (data padded)
    /\ 0 <= pad_top
    /\ 2 * pad_top <= fst target_size - dh < 2 * pad_top + 2
    /\ pad_top + pad_bottom = fst target_size - dh
    /\ 0 <= pad_left
    /\ 2 * pad_left <= snd target_size - dw < 2 * pad_left + 2
    /\ pad_left + pad_right = snd target_size - dw
    /\ Z.abs (pad_top - pad_bottom) <= 1
    /\ Z.abs (pad_left - pad_right) <= 1
    /\ shape padded = (pad_top + dh + pad_bottom) :: (pad_left + dw + pad_right) :: rest
    /\ data padded
       = replicate (Z.to_nat pad_top
                    * Z.to_nat ((pad_left + dw + pad_right) * prod_shape rest)) (lit (0 # 1))
         ++ concat (map (fun i =>
                           replicate (Z.to_nat pad_left * Z.to_nat (prod_shape rest)) (lit (0 # 1))
                           ++ take (Z.to_nat (dw * prod_shape rest))
                                (drop (i * Z.to_nat (dw * prod_shape rest)) (data resized))
                           ++ replicate (Z.to_nat pad_right * Z.to_nat (prod_shape rest))
                                (lit (0 # 1)))
                      (seq 0 (Z.to_nat dh)))
         ++ replicate (Z.to_nat pad_bottom
                       * Z.to_nat ((pad_left + dw + pad_right) * prod_shape rest)) (lit (0 # 1)).
Proof.
  intros Hrun.
  apply reshape_face_inv in Hrun
    as (src & dw & dh & resized & pads & padded & img2 & pixels
        & Hsrc & Hd & Hres & Hpads & Hpad & Hback & Harr & -> & _).
  destruct (cv2_resize_inv src resized dw dh Hres) as (Hdw & Hdh & rest & Hs & Hrest).
  rewrite (pad_width_image _ _ _ _ _ _ Hs) in Hpads. injection Hpads as <-.
  set (pad_top := (fst target_size - dh) / 2) in *.
  set (pad_bottom := fst target_size - dh - pad_top) in *.
  set (pad_left := (snd target_size - dw) / 2) in *.
  set (pad_right := snd target_size - dw - pad_left) in *.
  destruct (half_split (fst target_size - dh)) as (Hf0 & Hs0 & Hd0).
  destruct (half_split (snd target_size - dw)) as (Hf1 & Hs1 & Hd1).
  fold pad_top in Hf0, Hs0, Hd0. fold pad_bottom in Hs0, Hd0.
  fold pad_left in Hf1, Hs1, Hd1. fold pad_right in Hs1, Hd1.
  destruct (np_pad_inv resized padded _ Hpad) as (Hnonneg & Hlen & Hshape & Hdata).
  rewrite Hs in Hlen, Hshape, Hdata.
  apply Forall_cons in Hnonneg as [[Htop _] Hnonneg]. simpl in Htop.
  apply Forall_cons in Hnonneg as [[Hleft _] _]. simpl in Hleft.
  assert (Hkind : (rest = [] /\ (if grayscale then [] else [(0, 0)]) = [])
                  \/ (exists c, rest = [c] /\ (if grayscale then [] else [(0, 0)]) = [(0, 0)])).
  { destruct grayscale; simpl in Hlen.
    - left. split; [| reflexivity]. destruct rest; [reflexivity | discriminate].
    - right. destruct rest as [| c [| c' rest]]; try discriminate. eauto. }
  assert (HC : 0 <= prod_shape rest).
  { destruct Hrest as [-> | (c & -> & Hc)]; unfold prod_shape; simpl; lia. }
  assert (Hpshape : shape padded
                    = (pad_top + dh + pad_bottom) :: (pad_left + dw + pad_right) :: rest).
  { rewrite Hshape.
    destruct Hkind as [[-> ->] | (c & -> & ->)]; unfold padded_shape; simpl;
      [reflexivity |]. repeat f_equal. lia. }
  assert (Hpixels : data pixels = data padded).
  { rewrite Hpshape in Hback. simpl take in Hback.
    rewrite bool_decide_eq_false_2 in Hback
      by (intros Hne; apply Hne; f_equal; [lia | f_equal; lia]).
    injection Hback as <-. unfold img_to_array in Harr. rewrite Hpshape in Harr.
    destruct rest as [| c [| c' rest]]; try discriminate; injection Harr as <-; reflexivity. }
  exists src, dw, dh, resized, padded, pad_top, pad_bottom, pad_left, pad_right, rest.
  split; [exact Hsrc |]. split; [exact Hd |]. split; [exact Hres |]. split; [exact Hs |].
  split; [exact Hpad |].
  split; [simpl; rewrite Hpixels; reflexivity |].
  split; [exact Htop |]. split; [exact Hf0 |]. split; [exact Hs0 |].
  split; [exact Hleft |]. split; [exact Hf1 |]. split; [exact Hs1 |].
  split; [lia |]. split; [lia |]. split; [exact Hpshape |].
  rewrite Hdata.
  apply (pad_data_image (lit (0 # 1)) dh dw pad_top pad_bottom pad_left pad_right rest _
           (data resized) Hkind); [lia | exact HC].
Qed.

End PaddingClaim.

Lemma reshape_face_padding_witness :
  exists src dw dh resized padded pad_top pad_bottom pad_left pad_right rest,
    Ok (filled [2; 2; 3] 0%float) = Ok src
    /\ scaled_dsize (6, 9) src = Ok (dw, dh)
    /\ cv2_resize white_env src (dw, dh) = Ok resized
    /\ shape resized = dh :: dw :: rest
    /\ np_pad resized [(pad_top, pad_bottom); (pad_left, pad_right); (0, 0)] = Ok padded
    /\ data fitted_tensor = map (fun x => el_div x (lit (255 # 1))) (data padded)
    /\ 0 <= pad_top
    /\ 2 * pad_top <= 6 - dh < 2 * pad_top + 2
    /\ pad_top + pad_bottom = 6 - dh
    /\ 0 <= pad_left
    /\ 2 * pad_left <= 9 - dw < 2 * pad_left + 2
    /\ pad_left + pad_right = 9 - dw
    /\ Z.abs (pad_top - pad_bottom) <= 1
    /\ Z.abs (pad_left - pad_right) <= 1
    /\ shape padded = (pad_top + dh + pad_bottom) :: (pad_left + dw + pad_right) :: rest
    /\ data padded
       = replicate (Z.to_nat pad_top
                    * Z.to_nat ((pad_left + dw + pad_right) * prod_shape rest)) (lit (0 # 1))
         ++ concat (map (fun i =>
                           replicate (Z.to_nat pad_left * Z.to_nat (prod_shape rest)) (lit (0 # 1))
                           ++ take (Z.to_nat (dw * prod_shape rest))
                                (drop (i * Z.to_nat (dw * prod_shape rest)) (data resized))
                           ++ replicate (Z.to_nat pad_right * Z.to_nat (prod_shape rest))
                                (lit (0 # 1)))
                      (seq 0 (Z.to_nat dh)))
         ++ replicate (Z.to_nat pad_bottom
                       * Z.to_nat ((pad_left + dw + pad_right) * prod_shape rest)) (lit (0 # 1)).
Proof.
  exact (reshape_face_padding white_env (filled [2; 2; 3] 0%float) [0; 0; 2; 2] (6, 9) false
           fitted_tensor [0; 0; 2; 2] eq_refl).
Defined.
